(** * The bl832 data-movement flow ([orchestration/flows/bl832/move.py])

    A shallow embedding of the Prefect flow [process_new_832_file] and of
    the tasks it calls, together with the properties of the pipeline that
    the specification states.

    Layout:
    - [Py]      the Python primitives the flow relies on: exceptions,
                string indexing and slicing, [str.split], [os.path.join],
                [Path(...).name], [datetime.timedelta(days=...)];
    - [Flow]    the collaborators (transfer, secret store, ingestion
                service, settings block, scheduler) as state-passing
                functions over an abstract world, the tasks and the flow
                as programs in a state-and-exception monad that records
                every collaborator call;
    - [PyPath]  what the smoke test uses of [pathlib]: root, components,
                [str] and [with_name] of a POSIX path;
    - the smoke test [test_scicat] and [test_transfers_832], in the same
      monad; [scicat.test] and [uuid.uuid4] act on the world without
      being recorded among the calls;
    - the theorems.

    What is left out: logging ([logger.info] has no effect on control flow
    or on any collaborator call; the one expression inside a log line that
    can raise, [config.scicat['jobs_api_url']], is kept) and the
    construction of [Config832()], whose result is an input of the
    model. *)

From Stdlib Require Import String Ascii List ZArith Lia Bool.
From stdpp Require Import base option gmap strings.

Import ListNotations.
Local Open Scope string_scope.
Local Open Scope list_scope.

(* ===================================================================== *)
(** ** Python primitives *)
(* ===================================================================== *)

Module Py.

(** The exception classes the flow can raise by itself, and [Raised cls]
    for an exception of class [cls] coming out of a collaborator. *)
Inductive exn : Type :=
| IndexError
| KeyError
| ValueError
| OverflowError
| Raised (cls : string).

(** A Python expression either evaluates to a value or raises. *)
Inductive result (A : Type) : Type :=
| Ok (a : A)
| Raise (e : exn).
Arguments Ok {A} a.
Arguments Raise {A} e.

(** *** Strings *)

(** [s[0]]: the first character, [IndexError] on the empty string. *)
Definition str_first (s : string) : result ascii :=
  match s with
  | EmptyString => Raise IndexError
  | String c _ => Ok c
  end.

(** [s[n:]] *)
Fixpoint slice_from (n : nat) (s : string) : string :=
  match n, s with
  | O, _ => s
  | S _, EmptyString => EmptyString
  | S n', String _ s' => slice_from n' s'
  end.

(** [s.startswith(pre)] *)
Fixpoint startswith (s pre : string) {struct pre} : bool :=
  match pre with
  | EmptyString => true
  | String a pre' =>
      match s with
      | EmptyString => false
      | String b s' => Ascii.eqb a b && startswith s' pre'
      end
  end.

(** [s.endswith(suf)]: some suffix of [s] is [suf]. *)
Fixpoint endswith (s suf : string) {struct s} : bool :=
  String.eqb s suf ||
  match s with
  | EmptyString => false
  | String _ s' => endswith s' suf
  end.

(** The leftmost occurrence of [sep] in [s]: the text before it and the
    text after it ([s.partition(sep)] without the middle component), or
    [None] when [sep] does not occur. *)
Fixpoint partition (sep s : string) {struct s} : option (string * string) :=
  if startswith s sep then Some (EmptyString, slice_from (String.length sep) s)
  else
    match s with
    | EmptyString => None
    | String c s' =>
        match partition sep s' with
        | Some (before, after) => Some (String c before, after)
        | None => None
        end
    end.

(** The loop of [str.split]: cut at the leftmost occurrence, continue on
    what follows it.  Every cut consumes at least one character when [sep]
    is not empty, so [String.length s] rounds are enough. *)
Fixpoint split_loop (rounds : nat) (sep s : string) : list string :=
  match rounds with
  | O => [s]
  | S rounds' =>
      match partition sep s with
      | None => [s]
      | Some (before, after) => before :: split_loop rounds' sep after
      end
  end.

(** [s.split(sep)]; an empty separator raises [ValueError]. *)
Definition str_split (s sep : string) : result (list string) :=
  match sep with
  | EmptyString => Raise ValueError
  | _ => Ok (split_loop (String.length s) sep s)
  end.

(** [l[i]] for a non-negative index. *)
Definition list_index {A : Type} (l : list A) (i : nat) : result A :=
  match nth_error l i with
  | Some x => Ok x
  | None => Raise IndexError
  end.

(** *** [os.path.join] (posixpath, two arguments) *)

Definition sep : string := "/".

Definition os_path_join (a b : string) : string :=
  if startswith b sep then b
  else if String.eqb a "" || endswith a sep then a +:+ b
  else a +:+ sep +:+ b.

(** *** [pathlib.Path(p).name]

    The last component of the path that is neither empty nor ["."], the
    empty string when there is none. *)
Definition is_component (x : string) : bool :=
  negb (String.eqb x "") && negb (String.eqb x ".").

Definition path_name (p : string) : string :=
  List.last (List.filter is_component (split_loop (String.length p) sep p)) "".

(** *** [datetime.timedelta(days=d)] for an integer [d] *)

Record timedelta : Type := { days : Z }.

Definition max_days : Z := 999999999.

Definition timedelta_days (d : Z) : result timedelta :=
  if (Z.abs d <=? max_days)%Z then Ok {| days := d |} else Raise OverflowError.

End Py.

Import Py.


(* ===================================================================== *)
(** ** The flow and its collaborators *)
(* ===================================================================== *)

(** [GlobusEndpoint]: the flow reads [root_path] only; [uuid] stands for
    the identity under which the transfer service knows the endpoint. *)
Record GlobusEndpoint : Type := {
  uuid : string;
  root_path : string
}.

(** Modelled from the spec: the value [start_transfer] returns (the
    function is in [orchestration.globus], outside this file); the spec
    calls it TransferOutcome. *)
Inductive TransferOutcome : Type :=
| Succeeded
| TimedOut
| Failed (reason : string).

(** The arguments of one [scicat.submit_ingest] call. *)
Record IngestJob : Type := {
  jobs_api_url : string;
  ingest_path : string;
  token : string;
  ingestor : string
}.

(** The arguments of one [schedule_prefect_flow] call. *)
Record DeferredJob : Type := {
  deployment_name : string;
  flow_run_name : string;
  parameters : gmap string string;
  duration_from_now : timedelta
}.

(** The path normalisation of line 117:
    [file_path.split("/global")[1]]. *)
Definition normalize (file_path : string) : result string :=
  match str_split file_path "/global" with
  | Ok pieces => list_index pieces 1
  | Raise e => Raise e
  end.

Section Flow.

(** [W] is the state of the outside world (transfer service, secret
    store, ingestion service, Prefect server); [TransferClient] is the
    opaque Globus client handle. *)
Context {W TransferClient : Type}.

(** The arguments of one [start_transfer] call. *)
Record TransferRequest : Type := {
  transfer_client : TransferClient;
  source_endpoint : GlobusEndpoint;
  source_path : string;
  dest_endpoint : GlobusEndpoint;
  dest_path : string;
  max_wait_seconds : Z
}.

(** [Config832]: the Globus client, the three endpoints and the scicat
    settings dictionary. *)
Record Config832 : Type := {
  tc : TransferClient;
  spot832 : GlobusEndpoint;
  data832 : GlobusEndpoint;
  nersc832 : GlobusEndpoint;
  scicat : gmap string string
}.

(** The functions imported from outside the file.  Each one may change
    the world and either returns or raises. *)
Record Collaborators : Type := {
  (** [orchestration.globus.start_transfer] *)
  do_start_transfer : TransferRequest -> W -> result TransferOutcome * W;
  (** [Secret.load(name).get()] *)
  do_secret_load : string -> W -> result string * W;
  (** [scicat.submit_ingest]; the response is only logged *)
  do_submit_ingest : IngestJob -> W -> result string * W;
  (** [JSON.load(name).value], a dictionary of integer settings *)
  do_json_load : string -> W -> result (gmap string Z) * W;
  (** [orchestration.prefect.schedule_prefect_flow] *)
  do_schedule_prefect_flow : DeferredJob -> W -> result unit * W
}.

(** One collaborator call of a run, with what it answered. *)
Inductive Event : Type :=
| StartTransfer (req : TransferRequest) (res : result TransferOutcome)
| SecretLoad (name : string) (res : result string)
| SubmitIngest (job : IngestJob) (res : result string)
| JSONLoad (name : string) (res : result (gmap string Z))
| ScheduleFlow (job : DeferredJob) (res : result unit).

Record RunState : Type := {
  world : W;
  calls : list Event
}.

(** Programs: state passing, with Python's exception propagation. *)
Definition M (A : Type) : Type := RunState -> result A * RunState.

Definition ret {A : Type} (a : A) : M A := fun st => (Ok a, st).

Definition bind {A B : Type} (m : M A) (k : A -> M B) : M B :=
  fun st =>
    match m st with
    | (Ok a, st') => k a st'
    | (Raise e, st') => (Raise e, st')
    end.

(** A pure expression that may raise. *)
Definition lift {A : Type} (r : result A) : M A := fun st => (r, st).

(** A collaborator call: the world moves on and the call is recorded
    with its answer, whether it returned or raised. *)
Definition call {A : Type} (f : W -> result A * W)
    (ev : result A -> Event) : M A :=
  fun st =>
    let (r, w') := f (world st) in
    (r, {| world := w'; calls := calls st ++ [ev r] |}).

Notation "'let*' x ':=' m 'in' k" := (bind m (fun x => k))
  (at level 10, x pattern, m at level 100, k at level 200).

(** [d[k]] *)
Definition dict_get {V : Type} (d : gmap string V) (k : string) : result V :=
  match d !! k with
  | Some v => Ok v
  | None => Raise KeyError
  end.

(** What a run asked of the scheduler, of the ingestion service and of
    the transfer service, in call order. *)
Definition scheduled (l : list Event) : list DeferredJob :=
  flat_map (fun ev => match ev with ScheduleFlow job _ => [job] | _ => [] end) l.

Definition ingested (l : list Event) : list IngestJob :=
  flat_map (fun ev => match ev with SubmitIngest job _ => [job] | _ => [] end) l.

Definition transferred (l : list Event) : list TransferRequest :=
  flat_map (fun ev => match ev with StartTransfer req _ => [req] | _ => [] end) l.

Variable collab : Collaborators.

Definition start_transfer (transfer_client : TransferClient)
    (source_endpoint : GlobusEndpoint) (source_path : string)
    (dest_endpoint : GlobusEndpoint) (dest_path : string)
    (max_wait_seconds : Z) : M TransferOutcome :=
  let req := {| transfer_client := transfer_client;
                source_endpoint := source_endpoint;
                source_path := source_path;
                dest_endpoint := dest_endpoint;
                dest_path := dest_path;
                max_wait_seconds := max_wait_seconds |} in
  call (do_start_transfer collab req) (StartTransfer req).

Definition secret_load (name : string) : M string :=
  call (do_secret_load collab name) (SecretLoad name).

Definition submit_ingest (jobs_api_url ingest_path token ingestor : string)
    : M string :=
  let job := {| jobs_api_url := jobs_api_url; ingest_path := ingest_path;
                token := token; ingestor := ingestor |} in
  call (do_submit_ingest collab job) (SubmitIngest job).

Definition json_load (name : string) : M (gmap string Z) :=
  call (do_json_load collab name) (JSONLoad name).

Definition schedule_prefect_flow (deployment_name flow_run_name : string)
    (parameters : gmap string string) (duration_from_now : timedelta)
    : M unit :=
  let job := {| deployment_name := deployment_name;
                flow_run_name := flow_run_name;
                parameters := parameters;
                duration_from_now := duration_from_now |} in
  call (do_schedule_prefect_flow collab job) (ScheduleFlow job).

(** [transfer_spot_to_data] (lines 20-45) *)
Definition transfer_spot_to_data (file_path : string)
    (transfer_client : TransferClient) (spot832 data832 : GlobusEndpoint)
    : M TransferOutcome :=
  let* c := lift (str_first file_path) in
  let file_path :=
    if Ascii.eqb c "/" then slice_from 1 file_path else file_path in
  let source_path := os_path_join (root_path spot832) file_path in
  let dest_path := os_path_join (root_path data832) file_path in
  let* success :=
    start_transfer transfer_client spot832 source_path data832 dest_path 600 in
  ret success.

(** [transfer_data_to_nersc] (lines 48-75) *)
Definition transfer_data_to_nersc (file_path : string)
    (transfer_client : TransferClient) (data832 nersc832 : GlobusEndpoint)
    : M TransferOutcome :=
  let* c := lift (str_first file_path) in
  let file_path :=
    if Ascii.eqb c "/" then slice_from 1 file_path else file_path in
  let source_path := os_path_join (root_path data832) file_path in
  let dest_path := os_path_join (root_path nersc832) file_path in
  let* success :=
    start_transfer transfer_client data832 source_path nersc832 dest_path 600 in
  ret success.

(** [ingest_scicat] (lines 86-104) *)
Definition ingest_scicat (config : Config832) (relative_path : string)
    : M unit :=
  let* token := secret_load "scicat-token" in
  let* c := lift (str_first relative_path) in
  let relative_path :=
    if Ascii.eqb c "/" then slice_from 1 relative_path else relative_path in
  let ingest_path := os_path_join "/data_mover/8.3.2" relative_path in
  let* url := lift (dict_get (scicat config) "jobs_api_url") in
  let* response := submit_ingest url ingest_path token "als832_dx_3" in
  ret tt.

(** [process_new_832_file] (lines 107-153); [config] is the value of
    [Config832()]. *)
Definition process_new_832_file (config : Config832) (file_path : string)
    : M unit :=
  let* relative_path := lift (normalize file_path) in
  let* _ := transfer_spot_to_data relative_path
              (tc config) (spot832 config) (data832 config) in
  let* _ := transfer_data_to_nersc relative_path
              (tc config) (data832 config) (nersc832 config) in
  let* _ := ingest_scicat config relative_path in
  let* bl832_settings := json_load "bl832-settings" in
  let flow_name := "delete spot832: " +:+ path_name file_path in
  let* schedule_spot832_delete_days :=
    lift (dict_get bl832_settings "delete_spot832_files_after_days") in
  let* schedule_data832_delete_days :=
    lift (dict_get bl832_settings "delete_data832_files_after_days") in
  let* spot832_delay := lift (timedelta_days schedule_spot832_delete_days) in
  let* _ := schedule_prefect_flow "prune_spot832/prune_spot832" flow_name
              {[ "relative_path" := relative_path ]} spot832_delay in
  let flow_name := "delete data832: " +:+ path_name file_path in
  let* data832_delay := lift (timedelta_days schedule_data832_delete_days) in
  let* _ := schedule_prefect_flow "prune_data832/prune_data832" flow_name
              {[ "relative_path" := relative_path ]} data832_delay in
  ret tt.

(** One pipeline run: the flow started with no call made yet. *)
Definition run (config : Config832) (file_path : string) (w : W)
    : result unit * RunState :=
  process_new_832_file config file_path {| world := w; calls := [] |}.

(** The result of a run and the calls it made. *)
Definition run_result (config : Config832) (file_path : string) (w : W)
  : result unit :=
fst (run config file_path w).

Definition run_calls (config : Config832) (file_path : string) (w : W)
  : list Event :=
calls (snd (run config file_path w)).

End Flow.

(* ===================================================================== *)
(** ** Vocabulary of the statements *)
(* ===================================================================== *)

(** [sep in s] *)
Definition contains (s sep : string) : Prop :=
  exists before after, s = before +:+ sep +:+ after.

(** The marker of line 117. *)
Definition marker : string := "/global".

(** The two deletion jobs of lines 133-138 and 144-149, for the input
    path, the normalised path and a number of days. *)
Definition delete_spot832_job (file_path relative_path : string) (d : Z)
    : DeferredJob :=
  {| deployment_name := "prune_spot832/prune_spot832";
     flow_run_name := "delete spot832: " +:+ path_name file_path;
     parameters := {[ "relative_path" := relative_path ]};
     duration_from_now := {| days := d |} |}.

Definition delete_data832_job (file_path relative_path : string) (d : Z)
    : DeferredJob :=
  {| deployment_name := "prune_data832/prune_data832";
     flow_run_name := "delete data832: " +:+ path_name file_path;
     parameters := {[ "relative_path" := relative_path ]};
     duration_from_now := {| days := d |} |}.

(** Modelled from the spec: the error class that section 7 names for a
    path without the marker.  No class of that name exists in the source;
    an exception of that class would be [Raised] with its name. *)
Definition MalformedPathError : exn := Raised "MalformedPathError".

(** The characters at positions [i] and [i+1] of [path] are both
    separators. *)
Definition doubled_sep_at (i : nat) (path : string) : Prop :=
  String.get i path = Some "/"%char /\ String.get (S i) path = Some "/"%char.

(** [path] is [root] followed by [rel], with at most a separator between
    them, and no pair of adjacent separators straddles the junction: the
    pairs that lie wholly inside [root] or wholly inside [rel] are not
    the join's doing. *)
Definition joined_at_junction (root rel path : string) : Prop :=
  (path = root +:+ rel \/ path = root +:+ "/" +:+ rel) /\
  forall i, String.length root <= S i ->
            i + String.length rel < String.length path ->
            ~ doubled_sep_at i path.

(** [path] lies under [root]. *)
Definition under_root (root path : string) : Prop := startswith path root = true.

(** Lines 30-31 (and 58-59, 95-96) on their own: one leading separator
    is removed; the empty string has no first character. *)
Definition strip_leading_sep (file_path : string) : result string :=
  match str_first file_path with
  | Ok c => Ok (if Ascii.eqb c "/" then slice_from 1 file_path else file_path)
  | Raise e => Raise e
  end.


Section Vocabulary.

Context {W TransferClient : Type}.

(** Going from [st] to [st'], a task given the relative path [rel]
    submitted transfers from [src] to [dst] only, each addressed under the
    two roots and joined cleanly, and exactly one when [rel] is not
    empty. *)
Definition submits_joined (src dst : GlobusEndpoint) (rel : string)
    (st st' : @RunState W TransferClient) : Prop :=
  exists new,
    calls st' = calls st ++ new /\
    (rel <> "" -> length new = 1) /\
    forall ev, In ev new ->
      exists req res,
        ev = StartTransfer req res /\
        source_endpoint req = src /\ dest_endpoint req = dst /\
        under_root (root_path src) (source_path req) /\
        joined_at_junction (root_path src) rel (source_path req) /\
        under_root (root_path dst) (dest_path req) /\
        joined_at_junction (root_path dst) rel (dest_path req).

End Vocabulary.

(* ===================================================================== *)
(** ** Concrete collaborators *)
(* ===================================================================== *)

Module Scenario.

(** Three endpoints and the scicat settings; the world is trivial. *)
Definition config : @Config832 unit := {|
  tc := tt;
  spot832 := {| uuid := "spot832"; root_path := "/" |};
  data832 := {| uuid := "data832"; root_path := "/data" |};
  nersc832 := {| uuid := "nersc832";
                 root_path := "/global/cfs/cdirs/als/data_mover/8.3.2" |};
  scicat := {[ "jobs_api_url" := "https://scicat/jobs" ]}
|}.

(** Retention settings: 14 days on the instrument tier, 30 on the
    facility tier. *)
Definition settings : gmap string Z :=
  <[ "delete_spot832_files_after_days" := 14%Z ]>
    {[ "delete_data832_files_after_days" := 30%Z ]}.

(** Every collaborator answers and reports success. *)
Definition nominal : @Collaborators unit unit := {|
  do_start_transfer := fun _ w => (Ok Succeeded, w);
  do_secret_load := fun _ w => (Ok "secret", w);
  do_submit_ingest := fun _ w => (Ok "201 Created", w);
  do_json_load := fun _ w => (Ok settings, w);
  do_schedule_prefect_flow := fun _ w => (Ok tt, w)
|}.

(** The hop out of data832 (facility to archive) returns [Failed]. *)
Definition archive_hop_fails : @Collaborators unit unit := {|
  do_start_transfer := fun req w =>
    if String.eqb (uuid (source_endpoint req)) "data832"
    then (Ok (Failed "permission denied"), w) else (Ok Succeeded, w);
  do_secret_load := do_secret_load nominal;
  do_submit_ingest := do_submit_ingest nominal;
  do_json_load := do_json_load nominal;
  do_schedule_prefect_flow := do_schedule_prefect_flow nominal
|}.

(** Every transfer returns [TimedOut]. *)
Definition transfers_time_out : @Collaborators unit unit := {|
  do_start_transfer := fun _ w => (Ok TimedOut, w);
  do_secret_load := do_secret_load nominal;
  do_submit_ingest := do_submit_ingest nominal;
  do_json_load := do_json_load nominal;
  do_schedule_prefect_flow := do_schedule_prefect_flow nominal
|}.

(** The hop out of data832 raises. *)
Definition archive_hop_raises : @Collaborators unit unit := {|
  do_start_transfer := fun req w =>
    if String.eqb (uuid (source_endpoint req)) "data832"
    then (Raise (Raised "TransferError"), w) else (Ok Succeeded, w);
  do_secret_load := do_secret_load nominal;
  do_submit_ingest := do_submit_ingest nominal;
  do_json_load := do_json_load nominal;
  do_schedule_prefect_flow := do_schedule_prefect_flow nominal
|}.

(** The ingestion submission raises. *)
Definition ingest_raises : @Collaborators unit unit := {|
  do_start_transfer := do_start_transfer nominal;
  do_secret_load := do_secret_load nominal;
  do_submit_ingest := fun _ w => (Raise (Raised "IngestSubmitError"), w);
  do_json_load := do_json_load nominal;
  do_schedule_prefect_flow := do_schedule_prefect_flow nominal
|}.

(** The ingestion service answers with an error response. *)
Definition ingest_reports_failure : @Collaborators unit unit := {|
  do_start_transfer := do_start_transfer nominal;
  do_secret_load := do_secret_load nominal;
  do_submit_ingest := fun _ w => (Ok "500 Internal Server Error", w);
  do_json_load := do_json_load nominal;
  do_schedule_prefect_flow := do_schedule_prefect_flow nominal
|}.

Definition scan : string := "/global/raw/sample1/scan0001.h5".

(** The calls a run on [scan] makes with [config]. *)
Definition facility_request : @TransferRequest unit := {|
transfer_client := tt;
source_endpoint := spot832 config;
source_path := "/raw/sample1/scan0001.h5";
dest_endpoint := data832 config;
dest_path := "/data/raw/sample1/scan0001.h5";
max_wait_seconds := 600
|}.

Definition archive_request : @TransferRequest unit := {|
transfer_client := tt;
source_endpoint := data832 config;
source_path := "/data/raw/sample1/scan0001.h5";
dest_endpoint := nersc832 config;
dest_path :=
  "/global/cfs/cdirs/als/data_mover/8.3.2/raw/sample1/scan0001.h5";
max_wait_seconds := 600
|}.

Definition ingest_job : IngestJob := {|
jobs_api_url := "https://scicat/jobs";
ingest_path := "/data_mover/8.3.2/raw/sample1/scan0001.h5";
token := "secret";
ingestor := "als832_dx_3"
|}.

End Scenario.

(* ===================================================================== *)
(** ** Further vocabulary: the shape of a run *)
(* ===================================================================== *)

Section Shape.

Context {TransferClient : Type}.

(** The exception a recorded call raised, if it raised. *)
Definition raised_by (ev : @Event TransferClient) : option exn :=
  match ev with
  | StartTransfer _ (Raise e)
  | SecretLoad _ (Raise e)
  | SubmitIngest _ (Raise e)
  | JSONLoad _ (Raise e)
  | ScheduleFlow _ (Raise e) => Some e
  | _ => None
  end.

(** Which collaborator a recorded call went to. *)
Inductive Step : Type :=
| TransferStep
| SecretStep
| IngestStep
| SettingsStep
| ScheduleStep.

Definition step_of (ev : @Event TransferClient) : Step :=
  match ev with
  | StartTransfer _ _ => TransferStep
  | SecretLoad _ _ => SecretStep
  | SubmitIngest _ _ => IngestStep
  | JSONLoad _ _ => SettingsStep
  | ScheduleFlow _ _ => ScheduleStep
  end.

End Shape.

(** The collaborators of [process_new_832_file] in the order of its
    lines 118, 121, 89, 101, 128, 133 and 144. *)
Definition pipeline_steps : list Step :=
  [TransferStep; TransferStep; SecretStep; IngestStep; SettingsStep;
   ScheduleStep; ScheduleStep].

(* ===================================================================== *)
(** ** [pathlib]: what the smoke test uses of a POSIX path *)
(* ===================================================================== *)

Module PyPath.

(** [s.lstrip("/")] *)
Fixpoint lstrip_sep (s : string) : string :=
  match s with
  | EmptyString => EmptyString
  | String c s' => if Ascii.eqb c "/" then lstrip_sep s' else s
  end.

(** The root of a path: empty for a relative path, ["//"] for exactly
    two leading separators, ["/"] for any other number of them. *)
Definition path_root (p : string) : string :=
  if startswith p "/" then
    if Nat.eqb (String.length p - String.length (lstrip_sep p)) 2
    then "//" else "/"
  else "".

(** The components of a path: the pieces between separators that are
    neither empty nor ["."].  [path_name] is the last of them. *)
Definition path_components (p : string) : list string :=
  List.filter is_component (split_loop (String.length p) Py.sep p).

(** [str] of a path with this root and these components. *)
Definition path_str (root : string) (components : list string) : string :=
  let s := root +:+ String.concat "/" components in
  if String.eqb s "" then "." else s.

(** [name] can replace the last component of a path (the check of
    [with_name] in Python 3.9 to 3.11; later versions refuse every name
    that holds a separator, which differs only for such names). *)
Definition valid_name (name : string) : bool :=
  negb (String.eqb name "") && negb (endswith name "/") &&
  String.eqb (path_root name) "" &&
  Nat.eqb (length (path_components name)) 1.

(** [str(Path(p).with_name(name))] *)
Definition with_name (p name : string) : result string :=
  if String.eqb (path_name p) "" then Raise ValueError
  else if negb (valid_name name) then Raise ValueError
  else Ok (path_str (path_root p) (removelast (path_components p) ++ [name])).

End PyPath.

Import PyPath.

(* ===================================================================== *)
(** ** The smoke test ([test_scicat], [test_transfers_832]) *)
(* ===================================================================== *)

Section SmokeTest.

Context {W TransferClient : Type}.

(** What the smoke test needs beyond the collaborators of the pipeline:
    [scicat.test], the source of [uuid.uuid4()] strings, and the value
    [start_transfer] gives [max_wait_seconds] when the caller gives
    none. *)
Record TestCollaborators : Type := {
  do_scicat_test : string -> string -> W -> result unit * W;
  do_uuid4 : W -> string * W;
  default_max_wait_seconds : Z
}.

Variable collab : @Collaborators W TransferClient.
Variable test_collab : TestCollaborators.

Notation "'let*' x ':=' m 'in' k" := (bind m (fun x => k))
  (at level 10, x pattern, m at level 100, k at level 200).

(** A call that is not one of the five kinds [calls] records: only the
    world moves on. *)
Definition unrecorded {A : Type} (f : W -> result A * W)
    : @M W TransferClient A :=
  fun st =>
    let (r, w') := f (world st) in
    (r, {| world := w'; calls := calls st |}).

(** [str(uuid.uuid4())] *)
Definition uuid4 : @M W TransferClient string :=
  unrecorded (fun w => let (u, w') := do_uuid4 test_collab w in (Ok u, w')).

(** [test_scicat] (lines 78-83) *)
Definition test_scicat (config : @Config832 TransferClient) : M unit :=
  let* token := secret_load collab "scicat-token" in
  let* url := lift (dict_get (scicat config) "jobs_api_url") in
  let* _ := unrecorded (do_scicat_test test_collab url token) in
  ret tt.

(** [test_transfers_832] (lines 156-178); [config] is the value of
    [Config832()]. *)
Definition test_transfers_832 (config : @Config832 TransferClient)
    (file_path : string) : M unit :=
  let* _ := test_scicat config in
  let* _ := uuid4 in
  let* u := uuid4 in
  let* new_file := lift (with_name file_path ("test_" +:+ u +:+ ".txt")) in
  let* success :=
    start_transfer collab (tc config) (spot832 config) file_path
      (spot832 config) new_file (default_max_wait_seconds test_collab) in
  let* spot832_path :=
    transfer_spot_to_data collab new_file
      (tc config) (spot832 config) (data832 config) in
  let* task :=
    transfer_data_to_nersc collab new_file
      (tc config) (data832 config) (nersc832 config) in
  ret tt.

(** One run of the smoke test, its result and its calls. *)
Definition test_run (config : @Config832 TransferClient) (file_path : string)
    (w : W) : result unit * RunState :=
  test_transfers_832 config file_path {| world := w; calls := [] |}.

Definition test_result (config : @Config832 TransferClient)
    (file_path : string) (w : W) : result unit :=
  fst (test_run config file_path w).

Definition test_calls (config : @Config832 TransferClient)
    (file_path : string) (w : W) : list Event :=
  calls (snd (test_run config file_path w)).

End SmokeTest.

(** The collaborators of [test_transfers_832] in the order of its lines
    81, 166, 170 and 175, as far as [calls] records them. *)
Definition smoke_test_steps : list Step :=
  [SecretStep; TransferStep; TransferStep; TransferStep].

(** A string that can stand as one component of a path: no separator in
    it, not empty, not ["."]. *)
Definition proper (x : string) : Prop :=
  ~ contains x "/" /\ x <> "" /\ x <> ".".

(** The name the smoke test gives its copy (line 164). *)
Definition fresh_name (u : string) : string := "test_" +:+ u +:+ ".txt".

Module TestScenario.

(** The uuid source counts: the n-th call answers with n+1 letters x. *)
Fixpoint xs (n : nat) : string :=
  match n with
  | O => "x"
  | S n' => String "x" (xs n')
  end.

Definition test_nominal : @TestCollaborators nat := {|
  do_scicat_test := fun _ _ w => (Ok tt, w);
  do_uuid4 := fun w => (xs w, S w);
  default_max_wait_seconds := 600
|}.

Definition nominal : @Collaborators nat unit := {|
  do_start_transfer := fun _ w => (Ok Succeeded, w);
  do_secret_load := fun _ w => (Ok "secret", w);
  do_submit_ingest := fun _ w => (Ok "201 Created", w);
  do_json_load := fun _ w => (Ok Scenario.settings, w);
  do_schedule_prefect_flow := fun _ w => (Ok tt, w)
|}.

Definition test_file : string := "/raw/transfer_tests/test.txt".

(** The transfers of a smoke test on [test_file] with [Scenario.config];
    the second uuid string is ["xx"]. *)
Definition copy_request : @TransferRequest unit := {|
  transfer_client := tt;
  source_endpoint := spot832 Scenario.config;
  source_path := "/raw/transfer_tests/test.txt";
  dest_endpoint := spot832 Scenario.config;
  dest_path := "/raw/transfer_tests/test_xx.txt";
  max_wait_seconds := 600
|}.

Definition facility_request : @TransferRequest unit := {|
  transfer_client := tt;
  source_endpoint := spot832 Scenario.config;
  source_path := "/raw/transfer_tests/test_xx.txt";
  dest_endpoint := data832 Scenario.config;
  dest_path := "/data/raw/transfer_tests/test_xx.txt";
  max_wait_seconds := 600
|}.

Definition archive_request : @TransferRequest unit := {|
  transfer_client := tt;
  source_endpoint := data832 Scenario.config;
  source_path := "/data/raw/transfer_tests/test_xx.txt";
  dest_endpoint := nersc832 Scenario.config;
  dest_path :=
    "/global/cfs/cdirs/als/data_mover/8.3.2/raw/transfer_tests/test_xx.txt";
  max_wait_seconds := 600
|}.

End TestScenario.

(** Collaborators that answer as in [Scenario.nominal] but for the
    settings block, and three settings blocks. *)
Module Cases.

Definition with_settings (settings : gmap string Z)
    : @Collaborators unit unit := {|
  do_start_transfer := do_start_transfer Scenario.nominal;
  do_secret_load := do_secret_load Scenario.nominal;
  do_submit_ingest := do_submit_ingest Scenario.nominal;
  do_json_load := fun _ w => (Ok settings, w);
  do_schedule_prefect_flow := do_schedule_prefect_flow Scenario.nominal
|}.

Definition only_instrument_setting : gmap string Z :=
  {[ "delete_spot832_files_after_days" := 14%Z ]}.

Definition huge_instrument_setting : gmap string Z :=
  <[ "delete_spot832_files_after_days" := 1000000000%Z ]>
    {[ "delete_data832_files_after_days" := 30%Z ]}.

Definition huge_facility_setting : gmap string Z :=
  <[ "delete_spot832_files_after_days" := 14%Z ]>
    {[ "delete_data832_files_after_days" := 1000000000%Z ]}.

Definition start : @RunState unit unit := {| world := tt; calls := [] |}.

End Cases.

(* ===================================================================== *)
(** ** Running the flow symbolically *)
(* ===================================================================== *)

(** One step: case analysis on the next pure expression that may raise or
    on the next collaborator answer. *)
Ltac flow_step :=
  match goal with
  | |- context [normalize ?p] =>
      destruct (normalize p) as [?rp|?e] eqn:?Hnorm
  | |- context [str_first ?p] =>
      destruct (str_first p) as [?c|?e] eqn:?Hfirst
  | |- context [dict_get ?d ?k] =>
      destruct (dict_get d k) as [?v|?e] eqn:?Hget
  | |- context [timedelta_days ?d] =>
      destruct (timedelta_days d) as [?td|?e] eqn:?Hdelta
  | |- context [do_start_transfer ?c ?r ?w] =>
      destruct (do_start_transfer c r w) as [[?o|?e] ?w'] eqn:?Htransfer
  | |- context [do_secret_load ?c ?n ?w] =>
      destruct (do_secret_load c n w) as [[?tok|?e] ?w'] eqn:?Hsecret
  | |- context [do_submit_ingest ?c ?j ?w] =>
      destruct (do_submit_ingest c j w) as [[?resp|?e] ?w'] eqn:?Hingest
  | |- context [do_json_load ?c ?n ?w] =>
      destruct (do_json_load c n w) as [[?settings|?e] ?w'] eqn:?Hjson
  | |- context [do_schedule_prefect_flow ?c ?j ?w] =>
      destruct (do_schedule_prefect_flow c j w) as [[[]|?e] ?w'] eqn:?Hsched
  end;
  cbv beta iota zeta; cbn [fst snd world calls app].

(** Every path through [process_new_832_file], each with its result and
    its list of calls written out. *)
Ltac flow_paths :=
  unfold run_result, run_calls, run, process_new_832_file, transfer_spot_to_data,
    transfer_data_to_nersc, ingest_scicat, start_transfer, secret_load,
    submit_ingest, json_load, schedule_prefect_flow, call, bind, lift, ret;
  cbv beta iota zeta; cbn [fst snd world calls app];
  repeat flow_step.

(** [H] says that an event is one of a list written out: one goal per
    event it can be. *)
Ltac pick_event H :=
  repeat match type of H with
         | _ \/ _ => destruct H as [H|H]
         end;
  try contradiction; try discriminate H.

(* ===================================================================== *)
(** ** Facts about the string primitives *)
(* ===================================================================== *)

Section StringFacts.

(* stdpp freezes [String.append] under [simpl]; the proofs below compute
   with it. *)
Local Arguments String.append : simpl nomatch.

Lemma str_app_nil_r (s : string) : s +:+ "" = s.
Proof. induction s as [|c s IH]; simpl; [reflexivity | now rewrite IH]. Qed.

Lemma str_app_assoc (s t u : string) : (s +:+ t) +:+ u = s +:+ t +:+ u.
Proof. induction s as [|c s IH]; simpl; [reflexivity | now rewrite IH]. Qed.

Lemma str_length_app (s t : string) :
  String.length (s +:+ t) = String.length s + String.length t.
Proof. induction s as [|c s IH]; simpl; [reflexivity | now rewrite IH]. Qed.

Lemma startswith_app (s t : string) : startswith (s +:+ t) s = true.
Proof.
  induction s as [|c s IH]; simpl; [reflexivity|].
  now rewrite Ascii.eqb_refl, IH.
Qed.

Lemma startswith_inv (pre s : string) :
  startswith s pre = true -> s = pre +:+ slice_from (String.length pre) s.
Proof.
  revert s; induction pre as [|a pre IH]; intros s H; simpl in *; [reflexivity|].
  destruct s as [|b s]; [discriminate|].
  apply andb_true_iff in H as [Hab Hs].
  apply Ascii.eqb_eq in Hab; subst b.
  f_equal. now apply IH.
Qed.

Lemma startswith_weaken (pre s t : string) :
  startswith s pre = true -> startswith (s +:+ t) pre = true.
Proof.
  intros H. rewrite (startswith_inv _ _ H), str_app_assoc.
  apply startswith_app.
Qed.

Lemma slice_from_app_exact (s t : string) :
  slice_from (String.length s) (s +:+ t) = t.
Proof. induction s as [|c s IH]; simpl; [now destruct t | exact IH]. Qed.

Lemma slice_from_app (n : nat) (s t : string) :
  n <= String.length s -> slice_from n (s +:+ t) = slice_from n s +:+ t.
Proof.
  revert s; induction n as [|n IH]; intros s Hn; [reflexivity|].
  destruct s as [|c s]; simpl in *; [lia|].
  apply IH; lia.
Qed.

(** *** The leftmost cut *)

Lemma partition_Some (sep s before after : string) :
  partition sep s = Some (before, after) -> s = before +:+ sep +:+ after.
Proof.
  revert before; induction s as [|c s IH]; intros before H.
  - simpl in H. destruct (startswith "" sep) eqn:E; [|discriminate].
    injection H as <- <-. now apply startswith_inv.
  - cbn [partition] in H. destruct (startswith (String c s) sep) eqn:E.
    + injection H as <- <-. now apply startswith_inv.
    + destruct (partition sep s) as [[b a]|] eqn:P; [|discriminate].
      injection H as <- <-. simpl. f_equal. now apply IH.
Qed.

Lemma partition_None (sep s : string) :
  partition sep s = None <-> ~ contains s sep.
Proof.
  split.
  - induction s as [|c s IH]; intros H [x [y Hxy]].
    + simpl in H. destruct (startswith "" sep) eqn:E; [discriminate|].
      destruct x; [|discriminate]. simpl in Hxy.
      rewrite Hxy, startswith_app in E. discriminate.
    + cbn [partition] in H. destruct (startswith (String c s) sep) eqn:E;
        [discriminate|].
      destruct (partition sep s) as [[b a]|] eqn:P; [discriminate|].
      destruct x as [|c' x]; simpl in Hxy.
      * rewrite Hxy, startswith_app in E. discriminate.
      * injection Hxy as _ Hs. apply IH; [reflexivity|]. now exists x, y.
  - intros H. destruct (partition sep s) as [[b a]|] eqn:P; [|reflexivity].
    exfalso. apply H. exists b, a. now apply partition_Some.
Qed.

(** The text before the leftmost occurrence holds no occurrence. *)
Lemma partition_before (sep s before after : string) :
  sep <> "" ->
  partition sep s = Some (before, after) -> ~ contains before sep.
Proof.
  intros Hsep. revert before; induction s as [|c s IH]; intros before H.
  - simpl in H. destruct (startswith "" sep) eqn:E; [|discriminate].
    destruct sep; [congruence | discriminate].
  - cbn [partition] in H. destruct (startswith (String c s) sep) eqn:E.
    + injection H as <- <-. intros [x [y Hxy]].
      destruct x; [|discriminate]. destruct sep; [congruence | discriminate].
    + destruct (partition sep s) as [[b a]|] eqn:P; [|discriminate].
      injection H as <- <-. intros [x [y Hxy]].
      destruct x as [|c' x]; simpl in Hxy.
      * apply partition_Some in P. subst s.
        assert (startswith (String c b) sep = true) as Hb
          by (rewrite Hxy; apply startswith_app).
        apply (startswith_weaken _ _ (sep +:+ a)) in Hb.
        simpl in Hb, E. congruence.
      * injection Hxy as _ Hb. apply (IH b); [reflexivity|]. now exists x, y.
Qed.

(** An occurrence anywhere makes the leftmost cut succeed, and what
    follows that occurrence is kept in what follows the cut. *)
Lemma partition_app (sep a t : string) :
  exists before x, partition sep (a +:+ sep +:+ t) = Some (before, x +:+ t).
Proof.
  induction a as [|c a IH].
  - exists "", "". simpl (_ +:+ _).
    destruct sep as [|c sep]; [now destruct t|].
    assert (partition (String c sep) (String c sep +:+ t)
            = Some ("", slice_from (String.length (String c sep))
                                   (String c sep +:+ t))) as ->.
    { change (String c sep +:+ t) with (String c (sep +:+ t)).
      cbn [partition].
      change (String c (sep +:+ t)) with (String c sep +:+ t).
      now rewrite startswith_app. }
    now rewrite slice_from_app_exact.
  - destruct IH as [before [x IH]].
    change (String c a +:+ sep +:+ t) with (String c (a +:+ sep +:+ t)).
    cbn [partition]. destruct (startswith _ sep) eqn:E.
    + exists "", (slice_from (String.length sep) (String c a +:+ sep)).
      f_equal. f_equal.
      change (String c (a +:+ sep +:+ t)) with (String c a +:+ sep +:+ t).
      rewrite <- str_app_assoc. apply slice_from_app.
      rewrite str_length_app. lia.
    + rewrite IH. now exists (String c before), x.
Qed.

(** *** [str.split] *)

Lemma partition_shorter (sep s before after : string) :
  sep <> "" ->
  partition sep s = Some (before, after) ->
  String.length after < String.length s.
Proof.
  intros Hsep H. apply partition_Some in H. subst s.
  rewrite !str_length_app. destruct sep; [congruence | simpl; lia].
Qed.

Lemma split_loop_enough (sep : string) (n : nat) (s : string) :
  sep <> "" -> String.length s <= n ->
  split_loop n sep s = split_loop (String.length s) sep s.
Proof.
  intros Hsep. revert s.
  assert (forall m n s, String.length s <= m -> String.length s <= n ->
                        split_loop m sep s = split_loop n sep s) as Hmn.
  { induction m as [|m IH]; intros k s Hm Hk.
    - destruct s; [|simpl in Hm; lia].
      destruct k; simpl; [reflexivity|].
      destruct (startswith "" sep) eqn:E; [|reflexivity].
      destruct sep; [congruence | discriminate].
    - destruct k as [|k].
      + destruct s; [|simpl in Hk; lia]. simpl.
        destruct (startswith "" sep) eqn:E; [|reflexivity].
        destruct sep; [congruence | discriminate].
      + cbn [split_loop]. destruct (partition sep s) as [[b a]|] eqn:P;
          [|reflexivity].
        f_equal. pose proof (partition_shorter _ _ _ _ Hsep P).
        apply IH; lia. }
  intros s Hn. apply Hmn; [exact Hn | lia].
Qed.

(** The equation of the split loop. *)
Lemma str_split_eq (s sep : string) :
  sep <> "" ->
  str_split s sep =
  Ok match partition sep s with
     | None => [s]
     | Some (before, after) =>
         before :: split_loop (String.length after) sep after
     end.
Proof.
  intros Hsep. unfold str_split. destruct sep as [|c sep]; [congruence|].
  f_equal. destruct (partition (String c sep) s) as [[b a]|] eqn:P.
  - pose proof (partition_shorter _ _ _ _ Hsep P) as Hlt.
    destruct (String.length s) as [|n] eqn:L; [lia|].
    cbn [split_loop]. rewrite P. f_equal.
    apply split_loop_enough; [exact Hsep | lia].
  - destruct (String.length s); simpl; [reflexivity | now rewrite P].
Qed.

End StringFacts.

Example split_ex1 :
  str_split "/global/raw/sample1/scan0001.h5" "/global"
  = Ok [""; "/raw/sample1/scan0001.h5"].
Proof. reflexivity. Qed.

Example split_ex2 :
  str_split "/global/raw/global/x.h5" "/global" = Ok [""; "/raw"; "/x.h5"].
Proof. reflexivity. Qed.

Example split_ex3 : str_split "/global" "/global" = Ok [""; ""].
Proof. reflexivity. Qed.

Example split_ex4 : str_split "/raw/x.h5" "/global" = Ok ["/raw/x.h5"].
Proof. reflexivity. Qed.

Example join_ex1 : os_path_join "/data" "raw/x" = "/data/raw/x". Proof. reflexivity. Qed.
Example join_ex2 : os_path_join "/data/" "raw/x" = "/data/raw/x". Proof. reflexivity. Qed.
Example join_ex3 : os_path_join "/data" "/raw/x" = "/raw/x". Proof. reflexivity. Qed.
Example join_ex4 : os_path_join "" "raw/x" = "raw/x". Proof. reflexivity. Qed.
Example join_ex5 : os_path_join "/data" "" = "/data/". Proof. reflexivity. Qed.
Example name_ex1 : path_name "/global/raw/sample1/scan0001.h5" = "scan0001.h5". Proof. reflexivity. Qed.
Example name_ex2 : path_name "/a/b/" = "b". Proof. reflexivity. Qed.
Example name_ex3 : path_name "/" = "". Proof. reflexivity. Qed.



(* ===================================================================== *)
(** ** Path normalisation (line 117) *)
(* ===================================================================== *)

Section Normalisation.

Local Arguments String.append : simpl nomatch.

Lemma marker_not_empty : marker <> "".
Proof. discriminate. Qed.

(** Line 117 in terms of the leftmost cut: the piece kept is what lies
    between the first occurrence of the marker and the next one, or the
    end of the path. *)
Lemma normalize_cases (file_path : string) :
  normalize file_path =
  match partition marker file_path with
  | None => Raise IndexError
  | Some (_, after) =>
      Ok match partition marker after with
         | None => after
         | Some (piece, _) => piece
         end
  end.
Proof.
  unfold normalize. change "/global" with marker.
  rewrite (str_split_eq _ _ marker_not_empty). destruct (partition marker file_path) as [[b a]|]; [|reflexivity].
  unfold list_index. cbn [nth_error]. f_equal.
  destruct (String.length a) eqn:L.
  - destruct a; [reflexivity | discriminate].
  - cbn [split_loop]. now destruct (partition marker a) as [[piece rest]|].
Qed.

Lemma normalize_no_marker (file_path : string) :
  ~ contains file_path marker -> normalize file_path = Raise IndexError.
Proof.
  intros H. rewrite normalize_cases.
  apply partition_None in H. now rewrite H.
Qed.

(** The normalised path never holds the marker. *)
Lemma normalize_clean (file_path relative_path : string) :
  normalize file_path = Ok relative_path -> ~ contains relative_path marker.
Proof.
  rewrite normalize_cases.
  destruct (partition marker file_path) as [[b a]|]; [|discriminate].
  destruct (partition marker a) as [[piece rest]|] eqn:P; intros [= <-].
  - exact (partition_before _ _ _ _ marker_not_empty P).
  - now apply partition_None.
Qed.

End Normalisation.

(** C3, a run of the claim as stated: the normalised form of the
    scenario path is not a fixed point of the normalisation. *)
Lemma normalize_twice_differs :
  normalize Scenario.scan = Ok "/raw/sample1/scan0001.h5" /\
  normalize "/raw/sample1/scan0001.h5" <> Ok "/raw/sample1/scan0001.h5".
Proof. split; [reflexivity | discriminate]. Qed.

(** C3, amended: the normalisation is not idempotent.  Whatever path it
    accepts, its output no longer holds the marker, so normalising the
    output raises [IndexError]. *)
Theorem normalize_output_rejected (file_path relative_path : string) :
  normalize file_path = Ok relative_path ->
  ~ contains relative_path "/global" /\
  normalize relative_path = Raise IndexError.
Proof.
  intros H. pose proof (normalize_clean _ _ H) as Hc.
  split; [exact Hc | now apply normalize_no_marker].
Qed.

Lemma normalize_output_rejected_witness :
  normalize Scenario.scan = Ok "/raw/sample1/scan0001.h5" /\
  ~ contains "/raw/sample1/scan0001.h5" "/global" /\
  normalize "/raw/sample1/scan0001.h5" = Raise IndexError.
Proof.
  split; [reflexivity|].
  apply (normalize_output_rejected Scenario.scan). reflexivity.
Defined.

(** C4, a run of the claim as stated: a path without the marker is
    rejected, but with [IndexError], not with [MalformedPathError]. *)
Lemma no_marker_not_malformed_path_error :
  ~ contains "/raw/sample1/scan0001.h5" "/global" /\
  normalize "/raw/sample1/scan0001.h5" <> Raise MalformedPathError.
Proof.
  split; [now apply partition_None | discriminate].
Qed.

(** C9: when the marker occurs twice, the path is cut at the first two
    occurrences, the piece between them is the result, and what follows
    the second occurrence is dropped without an error. *)
Theorem normalize_truncates_at_second_marker (a b c : string) :
  exists before piece rest,
    a +:+ "/global" +:+ b +:+ "/global" +:+ c
      = before +:+ "/global" +:+ piece +:+ "/global" +:+ rest /\
    normalize (a +:+ "/global" +:+ b +:+ "/global" +:+ c) = Ok piece /\
    ~ contains before "/global" /\
    ~ contains piece "/global".
Proof.
  set (m := "/global").
  destruct (partition_app m a (b +:+ m +:+ c)) as [before [x P1]].
  destruct (partition_app m (x +:+ b) c) as [piece [y P2]].
  rewrite str_app_assoc in P2.
  exists before, piece, (y +:+ c). repeat split.
  - rewrite (partition_Some _ _ _ _ P1). do 2 f_equal.
    exact (partition_Some _ _ _ _ P2).
  - rewrite normalize_cases. change marker with m. rewrite P1, P2. reflexivity.
  - eapply partition_before; [|exact P1]. subst m; discriminate.
  - eapply partition_before; [|exact P2]. subst m; discriminate.
Qed.

Example normalize_two_markers :
  normalize "/global/raw/global/x.h5" = Ok "/raw".
Proof. reflexivity. Qed.

(* ===================================================================== *)
(** ** Joining a relative path to an endpoint root *)
(* ===================================================================== *)

Section Join.

Local Arguments String.append : simpl nomatch.

Lemma get_app_l (s t : string) (i : nat) :
  i < String.length s -> String.get i (s +:+ t) = String.get i s.
Proof. intros H. symmetry. now apply append_correct1. Qed.

Lemma get_app_r (s t : string) (i : nat) :
  String.get (String.length s + i) (s +:+ t) = String.get i t.
Proof. rewrite Nat.add_comm. symmetry. apply append_correct2. Qed.

Lemma first_not_sep (p : string) :
  startswith p "/" = false -> String.get 0 p <> Some "/"%char.
Proof.
  destruct p as [|c p]; simpl; [discriminate|].
  rewrite andb_true_r. intros H [= ->]. discriminate.
Qed.

Lemma last_not_sep (a : string) (i : nat) :
  endswith a "/" = false -> S i = String.length a ->
  String.get i a <> Some "/"%char.
Proof.
  revert i; induction a as [|c a IH]; intros i H L; [discriminate|].
  cbn [endswith] in H. apply orb_false_iff in H as [Hc Ha].
  destruct a as [|c' a].
  - injection L as ->. simpl. intros [= ->]. discriminate.
  - destruct i as [|i]; [discriminate|].
    change (String.get i (String c' a) <> Some "/"%char).
    apply IH; [exact Ha | simpl in *; lia].
Qed.

(** A relative path joined to a root stays under the root and gets at
    most one separator at the junction. *)
Lemma join_relative (root rel : string) :
  startswith rel "/" = false ->
  under_root root (os_path_join root rel) /\
  joined_at_junction root rel (os_path_join root rel).
Proof.
  intros Hrel. unfold os_path_join, Py.sep, under_root. rewrite Hrel.
  destruct (_ || _) eqn:E.
  - split; [apply startswith_app|]. split; [now left|].
    intros i H1 H2 [_ G]. rewrite str_length_app in H2.
    assert (S i = String.length root) as Hi by lia.
    replace (S i) with (String.length root + 0) in G by lia.
    rewrite get_app_r in G. now apply (first_not_sep rel).
  - apply orb_false_iff in E as [_ E].
    split; [apply startswith_app|]. split; [now right|].
    intros i H1 H2 [G1 G2]. rewrite !str_length_app in H2. simpl in H2.
    destruct (Nat.eq_dec (S i) (String.length root)) as [Hi|Hi].
    + rewrite get_app_l in G1 by lia. now apply (last_not_sep root i).
    + assert (i = String.length root) as -> by lia.
      replace (S (String.length root)) with (String.length root + 1) in G2 by lia.
      rewrite get_app_r in G2. now apply (first_not_sep rel).
Qed.

(** An absolute second argument replaces the first. *)
Lemma join_absolute (root q : string) :
  os_path_join root (String "/" q) = String "/" q.
Proof. reflexivity. Qed.

End Join.

(* ===================================================================== *)
(** ** The transfer tasks *)
(* ===================================================================== *)

Section Tasks.

Context {W TransferClient : Type}.
Variable collab : @Collaborators W TransferClient.

(** What a transfer task does, read off its definition: it raises before
    anything else on the empty path, and otherwise makes one call. *)
Lemma transfer_spot_to_data_run file_path tc src dst st :
  transfer_spot_to_data collab file_path tc src dst st =
  match strip_leading_sep file_path with
  | Raise e => (Raise e, st)
  | Ok stripped =>
      let req := {| transfer_client := tc;
                    source_endpoint := src;
                    source_path := os_path_join (root_path src) stripped;
                    dest_endpoint := dst;
                    dest_path := os_path_join (root_path dst) stripped;
                    max_wait_seconds := 600 |} in
      let (res, w') := do_start_transfer collab req (world st) in
      (res, {| world := w'; calls := calls st ++ [StartTransfer req res] |})
  end.
Proof.
  unfold transfer_spot_to_data, strip_leading_sep, bind, lift, ret,
    start_transfer, call.
  destruct (str_first file_path) as [c|e]; [|reflexivity].
  cbv zeta. now destruct (do_start_transfer _ _ _) as [[o|e] w'].
Qed.

Lemma transfer_data_to_nersc_run file_path tc src dst st :
  transfer_data_to_nersc collab file_path tc src dst st =
  match strip_leading_sep file_path with
  | Raise e => (Raise e, st)
  | Ok stripped =>
      let req := {| transfer_client := tc;
                    source_endpoint := src;
                    source_path := os_path_join (root_path src) stripped;
                    dest_endpoint := dst;
                    dest_path := os_path_join (root_path dst) stripped;
                    max_wait_seconds := 600 |} in
      let (res, w') := do_start_transfer collab req (world st) in
      (res, {| world := w'; calls := calls st ++ [StartTransfer req res] |})
  end.
Proof.
  unfold transfer_data_to_nersc, strip_leading_sep, bind, lift, ret,
    start_transfer, call.
  destruct (str_first file_path) as [c|e]; [|reflexivity].
  cbv zeta. now destruct (do_start_transfer _ _ _) as [[o|e] w'].
Qed.

Lemma strip_relative (rel : string) :
  startswith rel "/" = false ->
  strip_leading_sep rel = match rel with
                          | EmptyString => Raise IndexError
                          | _ => Ok rel
                          end.
Proof.
  destruct rel as [|c rel]; [reflexivity|]. intros H.
  cbn [startswith] in H. rewrite andb_true_r in H.
  unfold strip_leading_sep. cbn [str_first].
  now rewrite Ascii.eqb_sym, H.
Qed.

Lemma one_transfer_joined (rel : string) src dst tc (st : @RunState W TransferClient)
    (out : result TransferOutcome * RunState) :
  startswith rel "/" = false ->
  out = match strip_leading_sep rel with
        | Raise e => (Raise e, st)
        | Ok stripped =>
            let req := {| transfer_client := tc;
                          source_endpoint := src;
                          source_path := os_path_join (root_path src) stripped;
                          dest_endpoint := dst;
                          dest_path := os_path_join (root_path dst) stripped;
                          max_wait_seconds := 600 |} in
            let (res, w') := do_start_transfer collab req (world st) in
            (res, {| world := w'; calls := calls st ++ [StartTransfer req res] |})
        end ->
  submits_joined src dst rel st (snd out).
Proof.
  intros Hrel ->. rewrite (strip_relative _ Hrel).
  destruct rel as [|c rel].
  - exists []. simpl. rewrite app_nil_r. repeat split; [congruence | tauto].
  - cbv zeta. destruct (do_start_transfer _ _ _) as [res w'] eqn:E.
    eexists. split; [reflexivity|]. split; [reflexivity|].
    intros ev [<-|[]]. do 2 eexists. split; [reflexivity|]. cbn.
    destruct (join_relative (root_path src) _ Hrel).
    destruct (join_relative (root_path dst) _ Hrel). tauto.
Qed.

(** C7: for a relative path that does not begin with a separator, each
    transfer task addresses source and destination under the endpoint
    roots, with no doubled separator where root and path meet; when the
    path is not empty the task does submit that transfer. *)
Theorem transfer_tasks_join_cleanly (rel : string) tc src dst
    (st : @RunState W TransferClient) :
  startswith rel "/" = false ->
  submits_joined src dst rel st
    (snd (transfer_spot_to_data collab rel tc src dst st)) /\
  submits_joined src dst rel st
    (snd (transfer_data_to_nersc collab rel tc src dst st)).
Proof.
  intros Hrel. split; eapply one_transfer_joined; try exact Hrel.
  - apply transfer_spot_to_data_run.
  - apply transfer_data_to_nersc_run.
Qed.

(** C10, amended: a path that begins with two separators keeps one after
    the strip, so it is still absolute; the join returns it unchanged
    whatever the root, and both tasks address source and destination at
    that very path. *)
Theorem transfer_tasks_keep_second_separator (q : string) tc src dst
    (st : @RunState W TransferClient) :
  let stripped := String "/" q in
  let req := {| transfer_client := tc;
                source_endpoint := src; source_path := stripped;
                dest_endpoint := dst; dest_path := stripped;
                max_wait_seconds := 600 |} in
  strip_leading_sep (String "/" (String "/" q)) = Ok stripped /\
  startswith stripped "/" = true /\
  (forall root, os_path_join root stripped = stripped) /\
  (exists res w',
     transfer_spot_to_data collab (String "/" (String "/" q)) tc src dst st
     = (res, {| world := w';
                calls := calls st ++ [StartTransfer req res] |})) /\
  (exists res w',
     transfer_data_to_nersc collab (String "/" (String "/" q)) tc src dst st
     = (res, {| world := w';
                calls := calls st ++ [StartTransfer req res] |})).
Proof.
  cbv zeta. repeat split.
  - rewrite transfer_spot_to_data_run. cbn.
    destruct (do_start_transfer _ _ _) as [res w']. now exists res, w'.
  - rewrite transfer_data_to_nersc_run. cbn.
    destruct (do_start_transfer _ _ _) as [res w']. now exists res, w'.
Qed.

End Tasks.

Lemma transfer_tasks_join_cleanly_witness :
  startswith "raw/sample1/scan0001.h5" "/" = false /\
  submits_joined (spot832 Scenario.config) (data832 Scenario.config)
    "raw/sample1/scan0001.h5" {| world := tt; calls := [] |}
    (snd (transfer_spot_to_data Scenario.nominal "raw/sample1/scan0001.h5" tt
            (spot832 Scenario.config) (data832 Scenario.config)
            {| world := tt; calls := [] |})).
Proof.
  split; [reflexivity|].
  apply (transfer_tasks_join_cleanly Scenario.nominal). reflexivity.
Defined.

(** C10, a run of the claim as stated: with the instrument endpoint
    rooted at ["/"], the path ["//raw/f"] is sent from ["/raw/f"], which
    lies under that root. *)
Lemma double_separator_still_under_root :
  exists req res,
    calls (snd (transfer_spot_to_data Scenario.nominal "//raw/f" tt
                  (spot832 Scenario.config) (data832 Scenario.config)
                  {| world := tt; calls := [] |}))
    = [StartTransfer req res] /\
    source_path req = "/raw/f" /\
    under_root (root_path (source_endpoint req)) (source_path req).
Proof. do 2 eexists. repeat split. Qed.

(* ===================================================================== *)
(** ** The flow *)
(* ===================================================================== *)

Section FlowFacts.

Context {W TransferClient : Type}.
Variable collab : @Collaborators W TransferClient.

Lemma dict_get_Ok {V : Type} (d : gmap string V) (k : string) (v : V) :
  dict_get d k = Ok v <-> d !! k = Some v.
Proof. unfold dict_get. destruct (d !! k); split; congruence. Qed.

Lemma timedelta_days_Ok (d : Z) (td : timedelta) :
  timedelta_days d = Ok td -> td = {| days := d |} /\ (Z.abs d <= max_days)%Z.
Proof.
  unfold timedelta_days. destruct (Z.leb_spec (Z.abs d) max_days); [|discriminate].
  intros [= <-]. now split.
Qed.

Lemma timedelta_days_in_range (d : Z) :
  (Z.abs d <= max_days)%Z -> timedelta_days d = Ok {| days := d |}.
Proof.
  unfold timedelta_days. destruct (Z.leb_spec (Z.abs d) max_days); [reflexivity | lia].
Qed.

(** C8: a run that completes has registered exactly two deletion jobs,
    the last two calls of the run, both accepted: the instrument-tier job
    after the instrument-tier setting, the facility-tier job after the
    facility-tier setting, both with the same relative path in their
    parameters. *)
Theorem successful_run_schedules_two_deletions config file_path w :
  run_result collab config file_path w = Ok tt ->
  exists relative_path settings d_spot d_data before,
    normalize file_path = Ok relative_path /\
    In (JSONLoad "bl832-settings" (Ok settings)) before /\
    settings !! "delete_spot832_files_after_days" = Some d_spot /\
    settings !! "delete_data832_files_after_days" = Some d_data /\
    scheduled before = [] /\
    run_calls collab config file_path w =
      before ++
      [ ScheduleFlow (delete_spot832_job file_path relative_path d_spot) (Ok tt);
        ScheduleFlow (delete_data832_job file_path relative_path d_data) (Ok tt) ] /\
    parameters (delete_spot832_job file_path relative_path d_spot)
    = parameters (delete_data832_job file_path relative_path d_data).
Proof.
  flow_paths; try discriminate. intros _.
  apply timedelta_days_Ok in Hdelta as [-> _], Hdelta0 as [-> _].
  apply dict_get_Ok in Hget0, Hget1.
  eexists rp, settings, v0, v1, _.
  split; [reflexivity|].
  split; [|split; [exact Hget0|split; [exact Hget1|split; [|split; [|reflexivity]]]]];
    cycle 2.
  - change (?a :: ?b :: ?c :: ?d :: ?e :: ?f :: ?g :: [])
      with ([a; b; c; d; e] ++ [f; g]). reflexivity.
  - cbn. tauto.
  - reflexivity.
Qed.

(** C4, amended: a path without the marker makes line 117 raise
    [IndexError]; the run fails there, before any collaborator is
    called. *)
Theorem run_without_marker_raises_index_error config file_path w :
  ~ contains file_path "/global" ->
  normalize file_path = Raise IndexError /\
  run collab config file_path w
  = (Raise IndexError, {| world := w; calls := [] |}).
Proof.
  intros H. apply normalize_no_marker in H. split; [exact H|].
  unfold run, process_new_832_file, bind, lift. now rewrite H.
Qed.

(** A transfer that raises does halt the run: the run ends with that
    exception and has made no ingestion call and no scheduling call. *)
Theorem raised_transfer_halts_run config file_path w req e :
  In (StartTransfer req (Raise e)) (run_calls collab config file_path w) ->
  run_result collab config file_path w = Raise e /\
  ingested (run_calls collab config file_path w) = [] /\
  scheduled (run_calls collab config file_path w) = [].
Proof.
  flow_paths; cbn [In ingested scheduled flat_map app];
    intros H; pick_event H; injection H as _ <-; auto.
Qed.

(** What the hypotheses say about the settings settles the lookups and
    the durations of a path. *)
Ltac use_settings :=
  repeat match goal with
         | Hk : ?d !! ?k = Some ?v, Hg : dict_get ?d ?k = Raise _ |- _ =>
             apply dict_get_Ok in Hk; congruence
         | Hk : ?d !! ?k = Some ?v, Hg : dict_get ?d ?k = Ok ?v' |- _ =>
             apply dict_get_Ok in Hg;
             assert (v' = v) by congruence; subst v'; clear Hg
         | Hr : (Z.abs ?d <= max_days)%Z, Hg : timedelta_days ?d = Raise _ |- _ =>
             rewrite (timedelta_days_in_range d Hr) in Hg; discriminate
         | Hg : timedelta_days ?d = Ok ?td |- _ =>
             apply timedelta_days_Ok in Hg as [-> _]
         end.

(** C2, amended: once the ingestion submission has returned a response,
    whatever the response says, the run goes on to load the settings
    block and to the scheduler: if the block, when it is loaded, holds
    both retention settings in range, and no job is refused, then the
    block is loaded, both deletion jobs are scheduled, each with its own
    duration, and the run returns. *)
Theorem returned_ingest_response_does_not_gate_scheduling
    config file_path w job response settings d_spot d_data :
  In (SubmitIngest job (Ok response)) (run_calls collab config file_path w) ->
  (forall res,
     In (JSONLoad "bl832-settings" res) (run_calls collab config file_path w) ->
     res = Ok settings) ->
  settings !! "delete_spot832_files_after_days" = Some d_spot ->
  settings !! "delete_data832_files_after_days" = Some d_data ->
  (Z.abs d_spot <= max_days)%Z ->
  (Z.abs d_data <= max_days)%Z ->
  (forall j e,
     ~ In (ScheduleFlow j (Raise e)) (run_calls collab config file_path w)) ->
  exists relative_path,
    normalize file_path = Ok relative_path /\
    In (JSONLoad "bl832-settings" (Ok settings))
       (run_calls collab config file_path w) /\
    run_result collab config file_path w = Ok tt /\
    scheduled (run_calls collab config file_path w)
    = [ delete_spot832_job file_path relative_path d_spot;
        delete_data832_job file_path relative_path d_data ].
Proof.
  flow_paths; cbn [In]; intros Hing Hjs Hspot Hdata Rspot Rdata Hacc;
    pick_event Hing;
    pose proof (Hjs _ (or_intror (or_intror (or_intror (or_intror
                         (or_introl eq_refl)))))) as Hs;
    try discriminate Hs; injection Hs as ->; use_settings;
    try (exfalso; eapply Hacc; eauto 10; fail).
  eexists. split; [reflexivity|]. split; [do 4 right; now left|].
  split; reflexivity.
Qed.



(** C6, the failing input: on the empty path both transfer tasks raise
    [IndexError] at [file_path[0]], before any path is joined and before
    any transfer is submitted; the flow hands them the empty path on the
    input ["/global"]. *)
Theorem transfer_tasks_raise_on_empty_path config tc src dst
    (st : @RunState W TransferClient) w :
  transfer_spot_to_data collab "" tc src dst st = (Raise IndexError, st) /\
  transfer_data_to_nersc collab "" tc src dst st = (Raise IndexError, st) /\
  normalize "/global" = Ok "" /\
  run collab config "/global" w
  = (Raise IndexError, {| world := w; calls := [] |}).
Proof. repeat split. Qed.

End FlowFacts.

(* ===================================================================== *)
(** ** The statements on concrete runs *)
(* ===================================================================== *)

Lemma run_without_marker_raises_index_error_witness :
  ~ contains "/raw/sample1/scan0001.h5" "/global" /\
  run Scenario.nominal Scenario.config "/raw/sample1/scan0001.h5" tt
  = (Raise IndexError, {| world := tt; calls := [] |}).
Proof.
  assert (~ contains "/raw/sample1/scan0001.h5" "/global") as H
    by now apply partition_None.
  split; [exact H|].
  exact (proj2 (run_without_marker_raises_index_error Scenario.nominal
                  Scenario.config "/raw/sample1/scan0001.h5" tt H)).
Defined.

(** Line 117 on its own leaves the leading separator in place; it is
    this unstripped value that the deletion jobs receive. *)
Lemma scan_relative_path_keeps_separator :
  normalize "/global/raw/sample1/scan0001.h5" = Ok "/raw/sample1/scan0001.h5" /\
  normalize "/global/raw/sample1/scan0001.h5" <> Ok "raw/sample1/scan0001.h5".
Proof. split; [reflexivity | discriminate]. Qed.

(** C1, the failing input: the hop to the archive tier returns
    [Failed]; the flow has discarded what the task returned (line 121),
    so the run goes on, submits the ingestion job and schedules the
    deletion of both copies. *)
Lemma failed_archive_hop_does_not_halt :
  run_calls Scenario.archive_hop_fails Scenario.config Scenario.scan tt
  = [ StartTransfer Scenario.facility_request (Ok Succeeded);
      StartTransfer Scenario.archive_request (Ok (Failed "permission denied"));
      SecretLoad "scicat-token" (Ok "secret");
      SubmitIngest Scenario.ingest_job (Ok "201 Created");
      JSONLoad "bl832-settings" (Ok Scenario.settings);
      ScheduleFlow (delete_spot832_job Scenario.scan "/raw/sample1/scan0001.h5" 14)
        (Ok tt);
      ScheduleFlow (delete_data832_job Scenario.scan "/raw/sample1/scan0001.h5" 30)
        (Ok tt) ] /\
  ingested (run_calls Scenario.archive_hop_fails Scenario.config Scenario.scan tt)
  <> [] /\
  scheduled (run_calls Scenario.archive_hop_fails Scenario.config Scenario.scan tt)
  <> [].
Proof. repeat split; discriminate. Qed.

Lemma raised_transfer_halts_run_witness :
  In (StartTransfer Scenario.archive_request (Raise (Raised "TransferError")))
     (run_calls Scenario.archive_hop_raises Scenario.config Scenario.scan tt) /\
  run_result Scenario.archive_hop_raises Scenario.config Scenario.scan tt
  = Raise (Raised "TransferError") /\
  ingested (run_calls Scenario.archive_hop_raises Scenario.config Scenario.scan tt)
  = [] /\
  scheduled (run_calls Scenario.archive_hop_raises Scenario.config Scenario.scan tt)
  = [].
Proof.
  assert (In (StartTransfer Scenario.archive_request
                (Raise (Raised "TransferError")))
             (run_calls Scenario.archive_hop_raises Scenario.config
                Scenario.scan tt)) as H
    by (right; left; reflexivity).
  split; [exact H|].
  exact (raised_transfer_halts_run Scenario.archive_hop_raises Scenario.config
           Scenario.scan tt _ _ H).
Defined.

(** C2, a run of the claim as stated: both transfers succeed, the
    ingestion submission raises, and no deletion is scheduled. *)
Lemma raised_ingest_prevents_scheduling :
  run_calls Scenario.ingest_raises Scenario.config Scenario.scan tt
  = [ StartTransfer Scenario.facility_request (Ok Succeeded);
      StartTransfer Scenario.archive_request (Ok Succeeded);
      SecretLoad "scicat-token" (Ok "secret");
      SubmitIngest Scenario.ingest_job (Raise (Raised "IngestSubmitError")) ] /\
  scheduled (run_calls Scenario.ingest_raises Scenario.config Scenario.scan tt)
  = [].
Proof. split; reflexivity. Qed.

Lemma returned_ingest_response_does_not_gate_scheduling_witness :
  In (SubmitIngest Scenario.ingest_job (Ok "500 Internal Server Error"))
     (run_calls Scenario.ingest_reports_failure Scenario.config Scenario.scan tt) /\
  exists relative_path,
    normalize Scenario.scan = Ok relative_path /\
    In (JSONLoad "bl832-settings" (Ok Scenario.settings))
       (run_calls Scenario.ingest_reports_failure Scenario.config
          Scenario.scan tt) /\
    run_result Scenario.ingest_reports_failure Scenario.config Scenario.scan tt
    = Ok tt /\
    scheduled
      (run_calls Scenario.ingest_reports_failure Scenario.config Scenario.scan tt)
    = [ delete_spot832_job Scenario.scan relative_path 14;
        delete_data832_job Scenario.scan relative_path 30 ].
Proof.
  assert (run_calls Scenario.ingest_reports_failure Scenario.config
            Scenario.scan tt
          = [ StartTransfer Scenario.facility_request (Ok Succeeded);
              StartTransfer Scenario.archive_request (Ok Succeeded);
              SecretLoad "scicat-token" (Ok "secret");
              SubmitIngest Scenario.ingest_job (Ok "500 Internal Server Error");
              JSONLoad "bl832-settings" (Ok Scenario.settings);
              ScheduleFlow
                (delete_spot832_job Scenario.scan "/raw/sample1/scan0001.h5" 14)
                (Ok tt);
              ScheduleFlow
                (delete_data832_job Scenario.scan "/raw/sample1/scan0001.h5" 30)
                (Ok tt) ]) as Hcalls by reflexivity.
  assert (In (SubmitIngest Scenario.ingest_job (Ok "500 Internal Server Error"))
            (run_calls Scenario.ingest_reports_failure Scenario.config
               Scenario.scan tt)) as H
    by (do 3 right; left; reflexivity).
  split; [exact H|].
  apply (returned_ingest_response_does_not_gate_scheduling
           Scenario.ingest_reports_failure Scenario.config Scenario.scan tt
           Scenario.ingest_job "500 Internal Server Error" Scenario.settings
           14 30 H).
  - intros res Hin. rewrite Hcalls in Hin. cbn [In] in Hin. pick_event Hin.
    now injection Hin as <-.
  - reflexivity.
  - reflexivity.
  - unfold max_days; lia.
  - unfold max_days; lia.
  - intros j e Hin. rewrite Hcalls in Hin. cbn [In] in Hin. pick_event Hin.
Defined.

Lemma successful_run_schedules_two_deletions_witness :
  run_result Scenario.nominal Scenario.config Scenario.scan tt = Ok tt /\
  exists relative_path settings d_spot d_data before,
    normalize Scenario.scan = Ok relative_path /\
    In (JSONLoad "bl832-settings" (Ok settings)) before /\
    settings !! "delete_spot832_files_after_days" = Some d_spot /\
    settings !! "delete_data832_files_after_days" = Some d_data /\
    scheduled before = [] /\
    run_calls Scenario.nominal Scenario.config Scenario.scan tt =
      before ++
      [ ScheduleFlow (delete_spot832_job Scenario.scan relative_path d_spot) (Ok tt);
        ScheduleFlow (delete_data832_job Scenario.scan relative_path d_data) (Ok tt) ] /\
    parameters (delete_spot832_job Scenario.scan relative_path d_spot)
    = parameters (delete_data832_job Scenario.scan relative_path d_data).
Proof.
  split; [reflexivity|].
  apply (successful_run_schedules_two_deletions Scenario.nominal).
  reflexivity.
Defined.

(** Transfers that return [TimedOut] do not stop the run either. *)
Example timed_out_transfers_do_not_halt :
  run_result Scenario.transfers_time_out Scenario.config Scenario.scan tt = Ok tt /\
  length (scheduled (run_calls Scenario.transfers_time_out Scenario.config
                       Scenario.scan tt)) = 2.
Proof. split; reflexivity. Qed.

(** The retention settings of the scenario, 14 and 30 days, as the
    scheduler receives them. *)
Example run_nominal_scheduled :
  scheduled (run_calls Scenario.nominal Scenario.config Scenario.scan tt)
  = [ {| deployment_name := "prune_spot832/prune_spot832";
         flow_run_name := "delete spot832: scan0001.h5";
         parameters := {[ "relative_path" := "/raw/sample1/scan0001.h5" ]};
         duration_from_now := {| days := 14 |} |};
      {| deployment_name := "prune_data832/prune_data832";
         flow_run_name := "delete data832: scan0001.h5";
         parameters := {[ "relative_path" := "/raw/sample1/scan0001.h5" ]};
         duration_from_now := {| days := 30 |} |} ].
Proof. vm_compute. reflexivity. Qed.

(* ===================================================================== *)
(** ** Further properties of the flow *)
(* ===================================================================== *)

Lemma timedelta_days_out_of_range (d : Z) :
  (max_days < Z.abs d)%Z -> timedelta_days d = Raise OverflowError.
Proof.
  unfold timedelta_days. destruct (Z.leb_spec (Z.abs d) max_days); [lia | reflexivity].
Qed.

Lemma dict_get_raises {V : Type} (d : gmap string V) (k : string) (e : exn) :
  dict_get d k = Raise e -> e = KeyError /\ d !! k = None.
Proof. unfold dict_get. destruct (d !! k); [discriminate|]. now intros [= <-]. Qed.

(** The lookups of a path, settled by what is known of the settings. *)
Ltac read_settings :=
  repeat match goal with
         | Hk : ?d !! ?k = Some ?v, Hg : dict_get ?d ?k = _ |- _ =>
             rewrite (proj2 (dict_get_Ok d k v) Hk) in Hg;
             try discriminate Hg; injection Hg as <-
         | Hk : ?d !! ?k = None, Hg : dict_get ?d ?k = _ |- _ =>
             unfold dict_get in Hg; rewrite Hk in Hg;
             try discriminate Hg; injection Hg as <-
         | Hg : dict_get ?d ?k = Raise ?e |- _ =>
             is_var e; apply dict_get_raises in Hg as [-> ?]
         end.

Section FlowShape.

Context {W TransferClient : Type}.
Variable collab : @Collaborators W TransferClient.

(** X1: the run stops at the first collaborator call that raises: that
    call is the last one of the run, every call before it returned, and
    the run ends with the exception it raised. *)
Theorem raising_call_ends_run config file_path w ev e :
  In ev (run_calls collab config file_path w) ->
  raised_by ev = Some e ->
  run_result collab config file_path w = Raise e /\
  exists before,
    run_calls collab config file_path w = before ++ [ev] /\
    forall ev', In ev' before -> raised_by ev' = None.
Proof.
  flow_paths; cbn [In]; intros Hin Hr; pick_event Hin; subst ev;
    cbn [raised_by] in Hr; try discriminate Hr; injection Hr as <-;
    (split; [reflexivity|]);
    match goal with
    | |- exists before, ?l = _ /\ _ => exists (removelast l)
    end;
    (split; [reflexivity|]);
    intros ev' Hin'; cbn [removelast In] in Hin'; pick_event Hin';
    subst ev'; reflexivity.
Qed.

(** X2: the calls of a run follow the order of the pipeline: they are
    the first calls of transfer, transfer, secret, ingestion, settings,
    schedule, schedule; no run makes an eighth call or a call out of
    turn. *)
Theorem calls_follow_pipeline_order config file_path w :
  exists rest,
    map step_of (run_calls collab config file_path w) ++ rest = pipeline_steps.
Proof.
  flow_paths; cbn [map step_of]; unfold pipeline_steps;
    match goal with
    | |- exists rest, ?l ++ rest = ?p => exists (skipn (length l) p)
    end; reflexivity.
Qed.

(** X3: a deletion job reaches the scheduler only in a run where both
    transfers returned and the ingestion submission returned. *)
Theorem scheduling_follows_returned_ingest config file_path w job res :
  In (ScheduleFlow job res) (run_calls collab config file_path w) ->
  exists to_facility o1 to_archive o2 tok ingest response settings rest,
    run_calls collab config file_path w =
      StartTransfer to_facility (Ok o1) :: StartTransfer to_archive (Ok o2) ::
      SecretLoad "scicat-token" (Ok tok) :: SubmitIngest ingest (Ok response) ::
      JSONLoad "bl832-settings" (Ok settings) :: rest.
Proof.
  flow_paths; cbn [In]; intros Hin; pick_event Hin;
    do 9 eexists; reflexivity.
Qed.

(** X4: both retention settings are read before the first job is
    scheduled: when either key is missing from the settings block the run
    raises [KeyError] and schedules nothing, not even the job whose
    setting is present. *)
Theorem missing_retention_key_schedules_nothing config file_path w settings :
  In (JSONLoad "bl832-settings" (Ok settings))
     (run_calls collab config file_path w) ->
  settings !! "delete_spot832_files_after_days" = None \/
  settings !! "delete_data832_files_after_days" = None ->
  run_result collab config file_path w = Raise KeyError /\
  scheduled (run_calls collab config file_path w) = [].
Proof.
  flow_paths; cbn [In scheduled flat_map app]; intros Hin Hkey;
    pick_event Hin; injection Hin as ->;
    destruct Hkey as [Hkey|Hkey]; read_settings;
    split; reflexivity.
Qed.

(** X5: when the instrument-tier retention setting is one [timedelta]
    rejects, no job is scheduled: the run raises [OverflowError] at line
    137, or already [KeyError] at line 132 when the facility-tier key is
    missing. *)
Theorem instrument_retention_out_of_range config file_path w settings d_spot :
  In (JSONLoad "bl832-settings" (Ok settings))
     (run_calls collab config file_path w) ->
  settings !! "delete_spot832_files_after_days" = Some d_spot ->
  (max_days < Z.abs d_spot)%Z ->
  scheduled (run_calls collab config file_path w) = [] /\
  run_result collab config file_path w
  = match settings !! "delete_data832_files_after_days" with
    | Some _ => Raise OverflowError
    | None => Raise KeyError
    end.
Proof.
  flow_paths; cbn [In scheduled flat_map app];
    intros Hin Hspot Hrange; pick_event Hin; injection Hin as ->;
    destruct (settings !! "delete_data832_files_after_days") eqn:Hdata;
    read_settings;
    try (rewrite (timedelta_days_out_of_range _ Hrange) in Hdelta;
         try discriminate Hdelta; injection Hdelta as <-);
    split; reflexivity.
Qed.

(** X6: the facility-tier duration is built only after the
    instrument-tier job is scheduled (line 148): when the facility-tier
    setting is one [timedelta] rejects and the scheduler refuses nothing,
    the run raises [OverflowError] with the instrument-tier job already
    registered and no facility-tier job. *)
Theorem facility_retention_out_of_range config file_path w settings d_spot d_data :
  In (JSONLoad "bl832-settings" (Ok settings))
     (run_calls collab config file_path w) ->
  settings !! "delete_spot832_files_after_days" = Some d_spot ->
  settings !! "delete_data832_files_after_days" = Some d_data ->
  (Z.abs d_spot <= max_days)%Z ->
  (max_days < Z.abs d_data)%Z ->
  (forall j e,
     ~ In (ScheduleFlow j (Raise e)) (run_calls collab config file_path w)) ->
  run_result collab config file_path w = Raise OverflowError /\
  exists relative_path,
    normalize file_path = Ok relative_path /\
    scheduled (run_calls collab config file_path w)
    = [delete_spot832_job file_path relative_path d_spot].
Proof.
  flow_paths; cbn [In];
    intros Hin Hspot Hdata Rspot Rdata Hacc; pick_event Hin;
    injection Hin as ->; read_settings;
    try rewrite (timedelta_days_in_range _ Rspot) in *;
    try rewrite (timedelta_days_out_of_range _ Rdata) in *;
    try discriminate;
    try (exfalso; eapply Hacc; eauto 10; fail).
  injection Hdelta as <-. injection Hdelta0 as <-.
  split; [reflexivity|]. eexists. split; reflexivity.
Qed.

(** X7: a run makes no collaborator call at all exactly when line 117
    raises or yields the empty string, and such a run ends with
    [IndexError]. *)
Theorem run_without_calls config file_path w :
  (run_calls collab config file_path w = [] <->
   normalize file_path = Raise IndexError \/ normalize file_path = Ok "") /\
  (run_calls collab config file_path w = [] ->
   run_result collab config file_path w = Raise IndexError).
Proof.
  split; [|flow_paths; intros H; try discriminate H;
           [ destruct rp; [now injection Hfirst as <- | discriminate]
           | rewrite normalize_cases in Hnorm;
             destruct (partition marker file_path) as [[? ?]|];
             [discriminate | now injection Hnorm as <-] ]].
  split.
  - flow_paths; intros H; try discriminate H.
    + right. destruct rp; [reflexivity | discriminate].
    + left. rewrite normalize_cases in Hnorm.
      destruct (partition marker file_path) as [[? ?]|]; [discriminate|].
      now injection Hnorm as <-.
  - intros [H|H]; unfold run_calls, run, process_new_832_file, bind, lift;
      rewrite H; reflexivity.
Qed.

End FlowShape.

(* ===================================================================== *)
(** ** Further properties of the tasks *)
(* ===================================================================== *)

Section TaskFacts.

Context {W TransferClient : Type}.
Variable collab : @Collaborators W TransferClient.

Lemma strip_one_separator (rel : string) :
  strip_leading_sep (String "/" rel) = Ok rel.
Proof. reflexivity. Qed.

(** X8: one leading separator makes no difference to the tasks: for a
    non-empty path that does not begin with a separator, each task does
    the same with the path and with the path behind one separator. *)
Theorem leading_separator_is_optional (rel : string) config tc src dst
    (st : @RunState W TransferClient) :
  rel <> "" ->
  startswith rel "/" = false ->
  transfer_spot_to_data collab (String "/" rel) tc src dst st
  = transfer_spot_to_data collab rel tc src dst st /\
  transfer_data_to_nersc collab (String "/" rel) tc src dst st
  = transfer_data_to_nersc collab rel tc src dst st /\
  ingest_scicat collab config (String "/" rel) st
  = ingest_scicat collab config rel st.
Proof.
  intros Hne Hrel.
  assert (strip_leading_sep rel = Ok rel) as Hs
    by (rewrite (strip_relative _ Hrel); now destruct rel).
  repeat split.
  - now rewrite !transfer_spot_to_data_run, strip_one_separator, Hs.
  - now rewrite !transfer_data_to_nersc_run, strip_one_separator, Hs.
  - destruct rel as [|c rel]; [congruence|].
    cbn [startswith] in Hrel. rewrite andb_true_r, Ascii.eqb_sym in Hrel.
    unfold ingest_scicat, bind, lift.
    destruct (secret_load collab "scicat-token" st) as [[tok|e] st1];
      [|reflexivity].
    cbn [str_first]. cbv beta iota zeta. rewrite Hrel.
    change (Ascii.eqb "/" "/") with true. cbv iota.
    reflexivity.
Qed.

(** X9: [ingest_scicat] asks for the secret before it looks at the
    path or at the settings, and submits at most one job: the one with
    the url of the settings, the token the secret store returned, the
    ingestor [als832_dx_3] and the stripped path under
    [/data_mover/8.3.2], or the stripped path itself when it is still
    absolute. *)
Theorem ingest_scicat_calls config relative_path
    (st : @RunState W TransferClient) :
  exists res rest,
    calls (snd (ingest_scicat collab config relative_path st))
    = calls st ++ SecretLoad "scicat-token" res :: rest /\
    (rest = [] \/
     exists tok url stripped answer,
       res = Ok tok /\
       strip_leading_sep relative_path = Ok stripped /\
       scicat config !! "jobs_api_url" = Some url /\
       rest = [ SubmitIngest
                  {| jobs_api_url := url;
                     ingest_path :=
                       if startswith stripped "/" then stripped
                       else "/data_mover/8.3.2/" +:+ stripped;
                     token := tok;
                     ingestor := "als832_dx_3" |} answer ]).
Proof.
  unfold ingest_scicat, secret_load, submit_ingest, call, bind, lift, ret,
    strip_leading_sep.
  destruct (do_secret_load collab "scicat-token" (world st)) as [[tok|e] w1];
    cbv beta iota zeta; cbn [world calls];
    [|do 2 eexists; split; [reflexivity | now left]].
  destruct (str_first relative_path) as [c|e]; cbv beta iota zeta;
    [|do 2 eexists; split; [reflexivity | now left]].
  destruct (dict_get (scicat config) "jobs_api_url") as [url|e] eqn:Hurl;
    cbv beta iota zeta; [|do 2 eexists; split; [reflexivity | now left]].
  apply dict_get_Ok in Hurl.
  destruct (do_submit_ingest collab _ w1) as [[response|e] w2] eqn:Hsub;
    cbv beta iota zeta; cbn [snd world calls];
    (do 2 eexists; split; [rewrite <- app_assoc; reflexivity|]);
    right; exists tok, url; do 2 eexists;
    (split; [reflexivity|]); (split; [reflexivity|]); (split; [exact Hurl|]);
    unfold os_path_join, Py.sep;
    destruct (startswith _ "/"); reflexivity.
Qed.

(** X10: the secret is fetched even when nothing can be submitted: with
    the secret returned, an empty path makes [ingest_scicat] raise
    [IndexError] and a settings dictionary without [jobs_api_url] makes
    it raise [KeyError], in both cases after the one call to the secret
    store and without a submission. *)
Theorem ingest_scicat_fails_after_secret config relative_path
    (st : @RunState W TransferClient) tok w' :
  do_secret_load collab "scicat-token" (world st) = (Ok tok, w') ->
  (relative_path = "" ->
   ingest_scicat collab config relative_path st
   = (Raise IndexError,
      {| world := w';
         calls := calls st ++ [SecretLoad "scicat-token" (Ok tok)] |})) /\
  (relative_path <> "" ->
   scicat config !! "jobs_api_url" = None ->
   ingest_scicat collab config relative_path st
   = (Raise KeyError,
      {| world := w';
         calls := calls st ++ [SecretLoad "scicat-token" (Ok tok)] |})).
Proof.
  intros Hsec.
  unfold ingest_scicat, secret_load, call, bind, lift. rewrite Hsec.
  split.
  - now intros ->.
  - intros Hne Hurl. destruct relative_path as [|c rp]; [congruence|].
    cbn [str_first]. cbv beta iota zeta. unfold dict_get. now rewrite Hurl.
Qed.

End TaskFacts.

(* ===================================================================== *)
(** ** Further properties of the path functions *)
(* ===================================================================== *)

Section PathFacts.

Local Arguments String.append : simpl nomatch.

(** X11: line 117 accepts a path exactly when ["/global"] occurs in it
    as a substring, wherever it stands and whatever follows it. *)
Theorem normalize_accepts_iff_marker_occurs (file_path : string) :
  (exists relative_path, normalize file_path = Ok relative_path) <->
  contains file_path "/global".
Proof.
  rewrite normalize_cases. split.
  - intros [rp H]. destruct (partition marker file_path) as [[b a]|] eqn:P;
      [|discriminate].
    exists b, a. exact (partition_Some _ _ _ _ P).
  - intros H. destruct (partition marker file_path) as [[b a]|] eqn:P.
    + eexists. reflexivity.
    + exfalso. now apply (proj1 (partition_None marker file_path)).
Qed.

Lemma startswith_get (m s : string) :
  startswith s m = true ->
  forall i, i < String.length m -> String.get i s = String.get i m.
Proof.
  revert s; induction m as [|c m IH]; intros s H i Hi; [simpl in Hi; lia|].
  destruct s as [|c' s]; [discriminate|]. cbn [startswith] in H.
  apply andb_true_iff in H as [Hc Hs]. apply Ascii.eqb_eq in Hc. subst c'.
  destruct i as [|i]; [reflexivity|]. cbn [String.get].
  apply IH; [exact Hs | simpl in Hi; lia].
Qed.

Lemma startswith_within (m a r : string) :
  startswith (a +:+ r) m = true -> String.length m <= String.length a ->
  startswith a m = true.
Proof.
  revert a; induction m as [|c m IH]; intros a H L; [reflexivity|].
  destruct a as [|c' a]; [simpl in L; lia|].
  change (String c' a +:+ r) with (String c' (a +:+ r)) in H.
  cbn [startswith] in *. apply andb_true_iff in H as [Hc Hs].
  rewrite Hc. cbn [andb]. apply (IH a Hs). simpl in L; lia.
Qed.

(** A separator whose first character does not come back in it is found
    where it stands: no occurrence can begin before it and reach into
    it. *)
Lemma partition_at_marker (c0 : ascii) (m' a b : string) :
  (forall i, String.get i m' <> Some c0) ->
  ~ contains a (String c0 m') ->
  partition (String c0 m') (a +:+ String c0 m' +:+ b) = Some (a, b).
Proof.
  intros Hborder. set (m := String c0 m').
  induction a as [|c a IH]; intros Ha.
  - change ("" +:+ m +:+ b) with (m +:+ b). unfold m at 2.
    change (String c0 m' +:+ b) with (String c0 (m' +:+ b)).
    cbn [partition]. change (String c0 (m' +:+ b)) with (m +:+ b).
    rewrite startswith_app.
    now rewrite (slice_from_app_exact m b).
  - change (String c a +:+ m +:+ b) with (String c (a +:+ m +:+ b)).
    cbn [partition].
    destruct (startswith (String c (a +:+ m +:+ b)) m) eqn:E.
    + exfalso.
      destruct (Nat.le_gt_cases (String.length m) (String.length (String c a)))
        as [L|L].
      * apply Ha. change (String c (a +:+ m +:+ b)) with (String c a +:+ m +:+ b) in E.
        apply startswith_within in E; [|exact L].
        exists "", (slice_from (String.length m) (String c a)).
        now apply startswith_inv.
      * pose proof (startswith_get _ _ E (String.length (String c a)) L) as G.
        change (String c (a +:+ m +:+ b)) with (String c a +:+ m +:+ b) in G.
        replace (String.length (String c a))
          with (String.length (String c a) + 0) in G at 1 by lia.
        rewrite get_app_r in G.
        unfold m in G at 1.
        change (String c0 m' +:+ b) with (String c0 (m' +:+ b)) in G.
        cbn [String.get] in G.
        unfold m in G. cbn [String.length String.get] in G.
        symmetry in G. exact (Hborder _ G).
    + rewrite IH; [reflexivity|].
      intros [x [y Hxy]]. apply Ha. exists (String c x), y.
      change (String c x +:+ m +:+ y) with (String c (x +:+ m +:+ y)).
      now rewrite Hxy.
Qed.

Lemma global_borderless : forall i, String.get i "global" <> Some "/"%char.
Proof. intros i. do 7 (destruct i as [|i]; [discriminate|]). discriminate. Qed.

(** X12: with one marker in the path, the result is all that follows the
    marker, and what stands before the marker plays no part. *)
Theorem normalize_keeps_what_follows_marker (before after : string) :
  ~ contains before "/global" ->
  ~ contains after "/global" ->
  normalize (before +:+ "/global" +:+ after) = Ok after.
Proof.
  intros Hb Ha. rewrite normalize_cases. unfold marker.
  rewrite (partition_at_marker "/" "global" before after global_borderless Hb).
  apply partition_None in Ha. now rewrite Ha.
Qed.

(** *** [Path(...).name] *)

Lemma split_loop_eq (sep s : string) :
  sep <> "" ->
  split_loop (String.length s) sep s =
  match partition sep s with
  | None => [s]
  | Some (before, after) =>
      before :: split_loop (String.length after) sep after
  end.
Proof.
  intros Hsep. pose proof (str_split_eq s sep Hsep) as H.
  unfold str_split in H. destruct sep; [congruence|]. now injection H.
Qed.

(** No piece of a split holds the separator. *)
Lemma split_pieces_clean (sep : string) (n : nat) (s : string) :
  sep <> "" -> String.length s <= n ->
  Forall (fun piece => ~ contains piece sep) (split_loop n sep s).
Proof.
  intros Hsep. revert s; induction n as [|n IH]; intros s Hn.
  - destruct s; [|simpl in Hn; lia]. constructor; [|constructor].
    intros [x [y H]]. destruct x; [|discriminate]. destruct sep; [congruence|discriminate].
  - cbn [split_loop]. destruct (partition sep s) as [[b a]|] eqn:P.
    + constructor; [exact (partition_before _ _ _ _ Hsep P)|].
      apply IH. pose proof (partition_shorter _ _ _ _ Hsep P). lia.
    + constructor; [now apply partition_None | constructor].
Qed.

Lemma no_char_in_empty (c : ascii) : forall i, String.get i "" <> Some c.
Proof. intros i. now destruct i. Qed.

(** Splitting on ["/"] ends with what follows the last separator. *)
Lemma split_last_piece (name : string) :
  ~ contains name "/" ->
  forall n dir, String.length dir <= n ->
    exists pieces,
      split_loop (String.length (dir +:+ "/" +:+ name)) "/" (dir +:+ "/" +:+ name)
      = pieces ++ [name].
Proof.
  intros Hname. assert ("/" <> "") as Hsep by discriminate.
  assert (split_loop (String.length name) "/" name = [name]) as Hlast.
  { rewrite (split_loop_eq _ _ Hsep). apply partition_None in Hname.
    now rewrite Hname. }
  induction n as [|n IH]; intros dir Hn;
    destruct (partition "/" dir) as [[b a]|] eqn:P.
  - destruct dir; [discriminate P | simpl in Hn; lia].
  - apply partition_None in P.
    rewrite (split_loop_eq _ _ Hsep),
      (partition_at_marker "/" "" dir name (no_char_in_empty _) P), Hlast.
    now exists [dir].
  - pose proof (partition_shorter _ _ _ _ Hsep P) as Hlt.
    pose proof (partition_before _ _ _ _ Hsep P) as Hb.
    apply partition_Some in P. subst dir.
    rewrite !str_app_assoc.
    rewrite (split_loop_eq _ _ Hsep),
      (partition_at_marker "/" "" b _ (no_char_in_empty _) Hb).
    destruct (IH a ltac:(lia)) as [pieces Hp]. rewrite Hp.
    now exists (b :: pieces).
  - apply partition_None in P.
    rewrite (split_loop_eq _ _ Hsep),
      (partition_at_marker "/" "" dir name (no_char_in_empty _) P), Hlast.
    now exists [dir].
Qed.

(** X13: [Path(p).name] of a directory, a separator and a file name is
    the file name; both deletion jobs are labelled with it. *)
Theorem path_name_of_file (dir name relative_path : string) (d : Z) :
  ~ contains name "/" ->
  name <> "" -> name <> "." ->
  path_name (dir +:+ "/" +:+ name) = name /\
  flow_run_name (delete_spot832_job (dir +:+ "/" +:+ name) relative_path d)
  = "delete spot832: " +:+ name /\
  flow_run_name (delete_data832_job (dir +:+ "/" +:+ name) relative_path d)
  = "delete data832: " +:+ name.
Proof.
  intros Hname Hne Hdot.
  assert (path_name (dir +:+ "/" +:+ name) = name) as H.
  { unfold path_name, Py.sep.
    destruct (split_last_piece name Hname _ dir (Nat.le_refl _)) as [pieces ->].
    rewrite List.filter_app. cbn [List.filter].
    assert (is_component name = true) as ->.
    { unfold is_component. apply String.eqb_neq in Hne, Hdot.
      now rewrite Hne, Hdot. }
    apply List.last_last. }
  unfold delete_spot832_job, delete_data832_job. cbn [flow_run_name].
  now rewrite H.
Qed.

Lemma last_of_nonempty {A : Type} (l : list A) (d : A) :
  l <> [] -> In (List.last l d) l.
Proof.
  induction l as [|x l IH]; intros H; [congruence|].
  destruct l as [|y l]; [now left|].
  right. apply IH. discriminate.
Qed.

Lemma last_default_or_In {A : Type} (l : list A) (d : A) :
  List.last l d = d \/ In (List.last l d) l.
Proof.
  destruct l as [|x l]; [now left|].
  right. apply last_of_nonempty. discriminate.
Qed.

(** X14: whatever the path, [Path(p).name] holds no separator and is
    not ["."]. *)
Theorem path_name_is_a_component (p : string) :
  ~ contains (path_name p) "/" /\ path_name p <> ".".
Proof.
  unfold path_name, Py.sep.
  destruct (last_default_or_In
              (List.filter is_component (split_loop (String.length p) "/" p)) "")
    as [H|H].
  - rewrite H. split; [|discriminate].
    intros [x [y E]]. now destruct x.
  - apply List.filter_In in H as [Hin Hc]. split.
    + pose proof (split_pieces_clean "/" _ p ltac:(discriminate) (Nat.le_refl _))
        as Hall.
      rewrite List.Forall_forall in Hall. exact (Hall _ Hin).
    + intros E. rewrite E in Hc. discriminate.
Qed.

End PathFacts.

Example with_name_ex1 :
  with_name "/raw/transfer_tests/test.txt" (fresh_name "u")
  = Ok "/raw/transfer_tests/test_u.txt".
Proof. reflexivity. Qed.
Example with_name_ex2 : with_name "" "n" = Raise ValueError. Proof. reflexivity. Qed.
Example with_name_ex3 : with_name "/" "n" = Raise ValueError. Proof. reflexivity. Qed.
Example with_name_ex4 : with_name "a" "b" = Ok "b". Proof. reflexivity. Qed.
Example with_name_ex5 : with_name "//a/b" "c" = Ok "//a/c". Proof. reflexivity. Qed.
Example with_name_ex6 : with_name "///a/b" "c" = Ok "/a/c". Proof. reflexivity. Qed.
Example with_name_ex7 : with_name "a//b/./c/" "d" = Ok "a/b/d". Proof. reflexivity. Qed.
Example with_name_ex8 : with_name "a/b" "c/d" = Raise ValueError. Proof. reflexivity. Qed.
Example with_name_ex9 : with_name "a/b" "." = Raise ValueError. Proof. reflexivity. Qed.

Example test_run_nominal :
  transferred (test_calls TestScenario.nominal TestScenario.test_nominal
                 Scenario.config TestScenario.test_file 0)
  = [ TestScenario.copy_request; TestScenario.facility_request;
      TestScenario.archive_request ].
Proof. reflexivity. Qed.

(* ===================================================================== *)
(** ** [with_name]: a new name in the same folder *)
(* ===================================================================== *)

Section WithName.

Local Arguments String.append : simpl nomatch.

Lemma proper_is_component (x : string) : proper x -> is_component x = true.
Proof.
  intros [_ [Hne Hdot]]. unfold is_component.
  apply String.eqb_neq in Hne, Hdot. now rewrite Hne, Hdot.
Qed.

Lemma components_proper (p x : string) :
  In x (path_components p) -> proper x.
Proof.
  unfold path_components, Py.sep. intros H.
  apply List.filter_In in H as [Hin Hc]. split.
  - pose proof (split_pieces_clean "/" _ p ltac:(discriminate) (Nat.le_refl _))
      as Hall.
    rewrite List.Forall_forall in Hall. exact (Hall _ Hin).
  - unfold is_component in Hc. apply andb_true_iff in Hc as [H1 H2].
    apply negb_true_iff in H1, H2. now apply String.eqb_neq in H1, H2.
Qed.

Lemma proper_first_char (x : string) :
  proper x -> exists c x', x = String c x' /\ c <> "/"%char.
Proof.
  intros [Hc [Hne _]]. destruct x as [|c x']; [congruence|].
  exists c, x'. split; [reflexivity|]. intros ->.
  apply Hc. now exists "", x'.
Qed.

Lemma concat_first_char (x : string) (l : list string) :
  proper x ->
  exists c rest, String.concat "/" (x :: l) = String c rest /\ c <> "/"%char.
Proof.
  intros Hx. destruct (proper_first_char x Hx) as [c [x' [-> Hc]]].
  destruct l as [|y l]; cbn [String.concat]; eauto.
Qed.

(** Splitting a joined list of proper components gives the list back. *)
Lemma split_concat (comps : list string) :
  comps <> [] -> Forall proper comps ->
  split_loop (String.length (String.concat "/" comps)) "/"
    (String.concat "/" comps) = comps.
Proof.
  assert ("/" <> "") as Hsep by discriminate.
  induction comps as [|x l IH]; intros Hne Hall; [congruence|].
  inversion Hall as [|? ? Hx Hl]; subst.
  destruct l as [|y l].
  - cbn [String.concat]. rewrite (split_loop_eq _ _ Hsep).
    destruct Hx as [Hx _]. apply partition_None in Hx. now rewrite Hx.
  - change (String.concat "/" (x :: y :: l))
      with (x +:+ "/" +:+ String.concat "/" (y :: l)).
    rewrite (split_loop_eq _ _ Hsep),
      (partition_at_marker "/" "" x _ (no_char_in_empty _) (proj1 Hx)).
    f_equal. apply IH; [discriminate | exact Hl].
Qed.

Lemma filter_proper (comps : list string) :
  Forall proper comps -> List.filter is_component comps = comps.
Proof.
  induction 1 as [|x l Hx Hl IH]; [reflexivity|].
  cbn [List.filter]. now rewrite (proper_is_component _ Hx), IH.
Qed.

Lemma lstrip_sep_skip (s : string) : lstrip_sep (String "/" s) = lstrip_sep s.
Proof. reflexivity. Qed.

Lemma lstrip_sep_stop (c : ascii) (s : string) :
  Ascii.eqb c "/" = false -> lstrip_sep (String c s) = String c s.
Proof. intros H. cbn [lstrip_sep]. now rewrite H. Qed.

Lemma root_of_one_sep (c : ascii) (s : string) :
  Ascii.eqb c "/" = false -> path_root (String "/" (String c s)) = "/".
Proof.
  intros H. unfold path_root.
  change (startswith (String "/" (String c s)) "/") with true. cbv iota.
  rewrite lstrip_sep_skip, (lstrip_sep_stop _ _ H). cbn [String.length].
  replace (S (S (String.length s)) - S (String.length s)) with 1 by lia.
  reflexivity.
Qed.

Lemma root_of_two_seps (c : ascii) (s : string) :
  Ascii.eqb c "/" = false ->
  path_root (String "/" (String "/" (String c s))) = "//".
Proof.
  intros H. unfold path_root.
  change (startswith (String "/" (String "/" (String c s))) "/") with true.
  cbv iota.
  rewrite !lstrip_sep_skip, (lstrip_sep_stop _ _ H). cbn [String.length].
  replace (S (S (S (String.length s))) - S (String.length s)) with 2 by lia.
  reflexivity.
Qed.

Lemma root_of_relative (c : ascii) (s : string) :
  Ascii.eqb c "/" = false -> path_root (String c s) = "".
Proof.
  intros H. unfold path_root. cbn [startswith].
  now rewrite Ascii.eqb_sym, H.
Qed.

Lemma split_leading_sep (s : string) :
  split_loop (String.length (String "/" s)) "/" (String "/" s)
  = "" :: split_loop (String.length s) "/" s.
Proof.
  rewrite (split_loop_eq "/" (String "/" s)) by discriminate. reflexivity.
Qed.

(** A root and proper components are read back from their [str]. *)
Lemma components_of_str (root : string) (comps : list string) :
  root = "" \/ root = "/" \/ root = "//" ->
  comps <> [] -> Forall proper comps ->
  path_str root comps = root +:+ String.concat "/" comps /\
  path_components (root +:+ String.concat "/" comps) = comps /\
  path_root (root +:+ String.concat "/" comps) = root.
Proof.
  intros Hroot Hne Hall. assert ("/" <> "") as Hsep by discriminate.
  pose proof (split_concat comps Hne Hall) as Hsplit.
  pose proof (filter_proper comps Hall) as Hfilter.
  destruct comps as [|x l]; [congruence|].
  inversion Hall as [|? ? Hx Hl]; subst.
  destruct (concat_first_char x l Hx) as [c [rest [Hc Hnot]]].
  assert (Ascii.eqb c "/" = false) as Hcb by now apply Ascii.eqb_neq.
  unfold path_str, path_components, Py.sep.
  set (joined := String.concat "/" (x :: l)) in *. clearbody joined.
  destruct Hroot as [-> | [-> | ->]].
  - change ("" +:+ joined) with joined. rewrite Hsplit.
    split; [|split; [exact Hfilter|]]; rewrite Hc.
    + reflexivity.
    + now apply root_of_relative.
  - change ("/" +:+ joined) with (String "/" joined).
    rewrite split_leading_sep, Hsplit.
    split; [reflexivity|]. split; [exact Hfilter|]. rewrite Hc.
    now apply root_of_one_sep.
  - change ("//" +:+ joined) with (String "/" (String "/" joined)).
    rewrite !split_leading_sep, Hsplit.
    split; [reflexivity|]. split; [exact Hfilter|]. rewrite Hc.
    now apply root_of_two_seps.
Qed.

Lemma endswith_contains (s suf : string) :
  endswith s suf = true -> contains s suf.
Proof.
  induction s as [|c s IH]; cbn [endswith]; intros H;
    apply orb_true_iff in H as [H|H].
  - apply String.eqb_eq in H. subst suf. now exists "", "".
  - discriminate.
  - apply String.eqb_eq in H. subst suf. exists "", "".
    now rewrite str_app_nil_r.
  - destruct (IH H) as [x [y E]]. exists (String c x), y.
    change (String c x +:+ suf +:+ y) with (String c (x +:+ suf +:+ y)).
    now rewrite E.
Qed.

Lemma contains_sep_app (x y : string) :
  contains (x +:+ y) "/" -> contains x "/" \/ contains y "/".
Proof.
  induction x as [|c x IH]; intros [a [b E]]; [right; now exists a, b|].
  change (String c x +:+ y) with (String c (x +:+ y)) in E.
  destruct a as [|c' a].
  - injection E as -> _. left. now exists "", x.
  - change (String c' a +:+ "/" +:+ b) with (String c' (a +:+ "/" +:+ b)) in E.
    injection E as -> E.
    destruct IH as [[a0 [b0 E0]]|H]; [now exists a, b | | now right].
    left. exists (String c' a0), b0.
    change (String c' a0 +:+ "/" +:+ b0) with (String c' (a0 +:+ "/" +:+ b0)).
    now rewrite E0.
Qed.

Lemma proper_name_valid (name : string) :
  proper name -> valid_name name = true.
Proof.
  intros Hp. pose proof Hp as [Hc [Hne Hdot]].
  destruct (components_of_str "" [name] (or_introl eq_refl)
              ltac:(discriminate) ltac:(now constructor)) as [_ [Hcomp Hroot]].
  change ("" +:+ String.concat "/" [name]) with name in Hcomp, Hroot.
  unfold valid_name. rewrite Hcomp, Hroot.
  apply String.eqb_neq in Hne. rewrite Hne.
  destruct (endswith name "/") eqn:E; [|reflexivity].
  exfalso. apply Hc. now apply endswith_contains.
Qed.

Lemma proper_fresh_name (u : string) :
  ~ contains u "/" -> proper (fresh_name u).
Proof.
  intros Hu. unfold fresh_name. repeat split; try discriminate.
  intros H. apply contains_sep_app in H as [H|H].
  - now apply (proj1 (partition_None "/" "test_")).
  - apply contains_sep_app in H as [H|H]; [now apply Hu|].
    now apply (proj1 (partition_None "/" ".txt")).
Qed.

Lemma In_removelast {A : Type} (l : list A) (x : A) :
  In x (removelast l) -> In x l.
Proof.
  induction l as [|y l IH]; [easy|]. destruct l as [|z l]; [easy|].
  intros [->|H]; [now left | right; now apply IH].
Qed.

Lemma path_root_cases (p : string) :
  path_root p = "" \/ path_root p = "/" \/ path_root p = "//".
Proof.
  unfold path_root. destruct (startswith p "/"); [|now left].
  destruct (Nat.eqb _ 2); auto.
Qed.

(** X15: [with_name] with a name that holds no separator and is neither
    empty nor ["."]: it raises [ValueError] exactly on a path without a
    name, and otherwise the new path has the new name, the other
    components of the old path and its root: the same folder. *)
Theorem with_name_keeps_folder (p name : string) :
  ~ contains name "/" -> name <> "" -> name <> "." ->
  (path_name p = "" -> with_name p name = Raise ValueError) /\
  (path_name p <> "" ->
   exists new_file,
     with_name p name = Ok new_file /\
     path_name new_file = name /\
     path_components new_file = removelast (path_components p) ++ [name] /\
     path_root new_file = path_root p).
Proof.
  intros Hc Hne Hdot. assert (proper name) as Hp by (repeat split; assumption).
  unfold with_name. split.
  - now intros ->.
  - intros Hn. apply String.eqb_neq in Hn. rewrite Hn.
    rewrite (proper_name_valid _ Hp). cbn [negb].
    eexists. split; [reflexivity|].
    assert (Forall proper (removelast (path_components p) ++ [name])) as Hall.
    { apply Forall_app. split; [|now constructor].
      apply List.Forall_forall. intros x Hx.
      apply (components_proper p). now apply In_removelast. }
    assert (removelast (path_components p) ++ [name] <> []) as Hnil
      by now destruct (removelast (path_components p)).
    destruct (components_of_str (path_root p) _ (path_root_cases p) Hnil Hall)
      as [-> [Hcomp Hroot]].
    split; [|split; [exact Hcomp | exact Hroot]].
    change (path_name ?x) with (List.last (path_components x) "").
    rewrite Hcomp. apply List.last_last.
Qed.

(** Under the root ["/"] the new path is a separator followed by a
    relative path, which the strip and the join of the transfer tasks
    put back together. *)
Lemma with_name_under_slash (p name new_file : string) :
  path_root p = "/" -> proper name ->
  with_name p name = Ok new_file ->
  exists stripped,
    strip_leading_sep new_file = Ok stripped /\
    os_path_join "/" stripped = new_file.
Proof.
  intros Hroot Hp. unfold with_name.
  destruct (String.eqb (path_name p) ""); [discriminate|].
  rewrite (proper_name_valid _ Hp). cbn [negb]. intros [= <-].
  assert (Forall proper (removelast (path_components p) ++ [name])) as Hall.
  { apply Forall_app. split; [|now constructor].
    apply List.Forall_forall. intros x Hx.
    apply (components_proper p). now apply In_removelast. }
  assert (removelast (path_components p) ++ [name] <> []) as Hnil
    by now destruct (removelast (path_components p)).
  destruct (components_of_str (path_root p) _ (path_root_cases p) Hnil Hall)
    as [-> _].
  rewrite Hroot.
  destruct (removelast (path_components p) ++ [name]) as [|x l]; [congruence|].
  inversion Hall as [|? ? Hx Hl]; subst.
  destruct (concat_first_char x l Hx) as [c [rest [-> Hc]]].
  apply Ascii.eqb_neq in Hc.
  exists (String c rest). unfold strip_leading_sep, os_path_join, Py.sep.
  change ("/" +:+ String c rest) with (String "/" (String c rest)).
  split; [reflexivity|]. cbn [startswith]. rewrite Ascii.eqb_sym, Hc.
  reflexivity.
Qed.

End WithName.

(* ===================================================================== *)
(** ** The smoke test *)
(* ===================================================================== *)

(** One step of the smoke test: case analysis on the next expression that
    may raise or on the next answer of the outside world. *)
Ltac test_step :=
  match goal with
  | |- context [do_secret_load ?c ?n ?w] =>
      destruct (do_secret_load c n w) as [[?tok|?e] ?w'] eqn:?Hsecret
  | |- context [dict_get ?d ?k] =>
      destruct (dict_get d k) as [?v|?e] eqn:?Hget
  | |- context [do_scicat_test ?c ?u ?t ?w] =>
      destruct (do_scicat_test c u t w) as [[[]|?e] ?w'] eqn:?Htest
  | |- context [do_uuid4 ?c ?w] =>
      destruct (do_uuid4 c w) as [?u ?w'] eqn:?Huuid
  | |- context [with_name ?p ?n] =>
      destruct (with_name p n) as [?new_file|?e] eqn:?Hname
  | |- context [str_first ?p] =>
      destruct (str_first p) as [?c|?e] eqn:?Hfirst
  | |- context [do_start_transfer ?c ?r ?w] =>
      destruct (do_start_transfer c r w) as [[?o|?e] ?w'] eqn:?Htransfer
  end;
  cbv beta iota zeta; cbn [fst snd world calls app].

Ltac test_paths :=
  unfold test_result, test_calls, test_run, test_transfers_832, test_scicat,
    uuid4, unrecorded, transfer_spot_to_data, transfer_data_to_nersc,
    start_transfer, secret_load, call, bind, lift, ret;
  cbv beta iota zeta; cbn [fst snd world calls app];
  repeat test_step.

Section SmokeFacts.

Context {W TransferClient : Type}.
Variable collab : @Collaborators W TransferClient.
Variable test_collab : @TestCollaborators W.

(** X16: the smoke test asks for the secret, then submits at most three
    transfers; it never submits an ingestion job, never reads the
    retention settings and never schedules a deletion. *)
Theorem smoke_test_calls_in_order config file_path w :
  (exists rest,
     map step_of (test_calls collab test_collab config file_path w) ++ rest
     = smoke_test_steps) /\
  ingested (test_calls collab test_collab config file_path w) = [] /\
  scheduled (test_calls collab test_collab config file_path w) = [].
Proof.
  test_paths;
    (split; [|cbn [ingested scheduled flat_map app]; split; reflexivity]);
    cbn [map step_of]; unfold smoke_test_steps;
    match goal with
    | |- exists rest, ?l ++ rest = ?p => exists (skipn (length l) p)
    end; reflexivity.
Qed.

(** X17: on a path without a name (empty, ["/"], ["."], only separators
    and dots) the smoke test submits no transfer and does not return:
    [with_name] raises [ValueError] when the run gets that far. *)
Theorem smoke_test_needs_a_name config file_path w :
  path_name file_path = "" ->
  transferred (test_calls collab test_collab config file_path w) = [] /\
  exists e, test_result collab test_collab config file_path w = Raise e.
Proof.
  intros Hn.
  assert (forall name, with_name file_path name = Raise ValueError) as Hw
    by (intros name; unfold with_name; now rewrite Hn).
  test_paths; cbn [transferred flat_map app];
    try (rewrite Hw in Hname; discriminate Hname);
    split; eauto.
Qed.


(** X19: with the instrument endpoint rooted at ["/"] and a path that
    begins with one separator, the smoke test sends to the facility tier
    the very file it has copied: the source of the second transfer is the
    destination of the first.  (The uuid strings hold no separator.) *)
Theorem smoke_test_transfers_its_copy config file_path w :
  root_path (spot832 config) = "/" ->
  path_root file_path = "/" ->
  (forall w0, ~ contains (fst (do_uuid4 test_collab w0)) "/") ->
  forall copy to_facility rest,
    transferred (test_calls collab test_collab config file_path w)
    = copy :: to_facility :: rest ->
    source_endpoint to_facility = dest_endpoint copy /\
    source_path to_facility = dest_path copy.
Proof.
  test_paths; cbn [transferred flat_map app];
    intros Hspot Hroot Hu copy to_facility rest Hcalls;
    try discriminate Hcalls;
    injection Hcalls as <- <- _; cbn [source_endpoint dest_endpoint
      source_path dest_path]; (split; [reflexivity|]);
    specialize (Hu w'1); rewrite Huuid0 in Hu; cbn [fst] in Hu;
    destruct (with_name_under_slash file_path _ new_file Hroot
                (proper_fresh_name _ Hu) Hname) as [stripped [Hs Hj]];
    unfold strip_leading_sep in Hs; rewrite Hfirst in Hs;
    injection Hs as Hs; rewrite Hspot, Hs; exact Hj.
Qed.

(** X20: the smoke test submits a transfer only after the secret was
    returned, the settings gave the jobs url and [scicat.test] returned
    on them. *)
Theorem smoke_test_checks_scicat_first config file_path w :
  transferred (test_calls collab test_collab config file_path w) <> [] ->
  exists tok url w0 w1,
    In (SecretLoad "scicat-token" (Ok tok))
       (test_calls collab test_collab config file_path w) /\
    scicat config !! "jobs_api_url" = Some url /\
    do_scicat_test test_collab url tok w0 = (Ok tt, w1).
Proof.
  test_paths; cbn [transferred flat_map app In]; intros H;
    try congruence;
    apply dict_get_Ok in Hget;
    do 4 eexists; (split; [left; reflexivity|]); split; eassumption.
Qed.

End SmokeFacts.

(* ===================================================================== *)
(** ** The further properties on concrete runs *)
(* ===================================================================== *)

Lemma raising_call_ends_run_witness :
  run_result Scenario.archive_hop_raises Scenario.config Scenario.scan tt
  = Raise (Raised "TransferError") /\
  exists before,
    run_calls Scenario.archive_hop_raises Scenario.config Scenario.scan tt
    = before ++ [StartTransfer Scenario.archive_request
                   (Raise (Raised "TransferError"))] /\
    forall ev', In ev' before -> raised_by ev' = None.
Proof.
  apply (raising_call_ends_run Scenario.archive_hop_raises Scenario.config
           Scenario.scan tt).
  - right; left; reflexivity.
  - reflexivity.
Defined.

Lemma scheduling_follows_returned_ingest_witness :
  exists to_facility o1 to_archive o2 tok ingest response settings rest,
    run_calls Scenario.nominal Scenario.config Scenario.scan tt =
      StartTransfer to_facility (Ok o1) :: StartTransfer to_archive (Ok o2) ::
      SecretLoad "scicat-token" (Ok tok) :: SubmitIngest ingest (Ok response) ::
      JSONLoad "bl832-settings" (Ok settings) :: rest.
Proof.
  apply (scheduling_follows_returned_ingest Scenario.nominal Scenario.config
           Scenario.scan tt
           (delete_spot832_job Scenario.scan "/raw/sample1/scan0001.h5" 14)
           (Ok tt)).
  do 5 right; left; reflexivity.
Defined.

Lemma missing_retention_key_schedules_nothing_witness :
  Cases.only_instrument_setting !! "delete_data832_files_after_days" = None /\
  run_result (Cases.with_settings Cases.only_instrument_setting)
    Scenario.config Scenario.scan tt = Raise KeyError /\
  scheduled (run_calls (Cases.with_settings Cases.only_instrument_setting)
               Scenario.config Scenario.scan tt) = [].
Proof.
  split; [reflexivity|].
  apply (missing_retention_key_schedules_nothing
           (Cases.with_settings Cases.only_instrument_setting) Scenario.config
           Scenario.scan tt Cases.only_instrument_setting).
  - do 4 right; left; reflexivity.
  - right; reflexivity.
Defined.

Lemma instrument_retention_out_of_range_witness :
  scheduled (run_calls (Cases.with_settings Cases.huge_instrument_setting)
               Scenario.config Scenario.scan tt) = [] /\
  run_result (Cases.with_settings Cases.huge_instrument_setting)
    Scenario.config Scenario.scan tt
  = match Cases.huge_instrument_setting !! "delete_data832_files_after_days" with
    | Some _ => Raise OverflowError
    | None => Raise KeyError
    end.
Proof.
  apply (instrument_retention_out_of_range
           (Cases.with_settings Cases.huge_instrument_setting) Scenario.config
           Scenario.scan tt Cases.huge_instrument_setting 1000000000).
  - do 4 right; left; reflexivity.
  - reflexivity.
  - reflexivity.
Defined.

Example instrument_retention_out_of_range_overflow :
  run_result (Cases.with_settings Cases.huge_instrument_setting)
    Scenario.config Scenario.scan tt = Raise OverflowError.
Proof. reflexivity. Qed.

Lemma facility_retention_out_of_range_witness :
  run_result (Cases.with_settings Cases.huge_facility_setting)
    Scenario.config Scenario.scan tt = Raise OverflowError /\
  exists relative_path,
    normalize Scenario.scan = Ok relative_path /\
    scheduled (run_calls (Cases.with_settings Cases.huge_facility_setting)
                 Scenario.config Scenario.scan tt)
    = [delete_spot832_job Scenario.scan relative_path 14].
Proof.
  apply (facility_retention_out_of_range
           (Cases.with_settings Cases.huge_facility_setting) Scenario.config
           Scenario.scan tt Cases.huge_facility_setting 14 1000000000).
  - do 4 right; left; reflexivity.
  - reflexivity.
  - reflexivity.
  - unfold max_days; lia.
  - reflexivity.
  - intros j e Hin. vm_compute in Hin. pick_event Hin.
Defined.

Lemma leading_separator_is_optional_witness :
  transfer_spot_to_data Scenario.nominal "/raw/x.h5" tt
    (spot832 Scenario.config) (data832 Scenario.config) Cases.start
  = transfer_spot_to_data Scenario.nominal "raw/x.h5" tt
      (spot832 Scenario.config) (data832 Scenario.config) Cases.start /\
  transfer_data_to_nersc Scenario.nominal "/raw/x.h5" tt
    (spot832 Scenario.config) (data832 Scenario.config) Cases.start
  = transfer_data_to_nersc Scenario.nominal "raw/x.h5" tt
      (spot832 Scenario.config) (data832 Scenario.config) Cases.start /\
  ingest_scicat Scenario.nominal Scenario.config "/raw/x.h5" Cases.start
  = ingest_scicat Scenario.nominal Scenario.config "raw/x.h5" Cases.start.
Proof.
  apply (leading_separator_is_optional Scenario.nominal "raw/x.h5").
  - discriminate.
  - reflexivity.
Defined.

Lemma ingest_scicat_fails_after_secret_witness :
  ingest_scicat Scenario.nominal Scenario.config "" Cases.start
  = (Raise IndexError,
     {| world := tt; calls := [SecretLoad "scicat-token" (Ok "secret")] |}).
Proof.
  exact (proj1 (ingest_scicat_fails_after_secret Scenario.nominal
                  Scenario.config "" Cases.start "secret" tt eq_refl) eq_refl).
Defined.

Lemma normalize_keeps_what_follows_marker_witness :
  normalize ("/mnt/spot" +:+ "/global" +:+ "/raw/x.h5") = Ok "/raw/x.h5".
Proof.
  apply normalize_keeps_what_follows_marker; now apply partition_None.
Defined.

Lemma path_name_of_file_witness :
  path_name ("/global/raw" +:+ "/" +:+ "scan0001.h5") = "scan0001.h5" /\
  flow_run_name (delete_spot832_job ("/global/raw" +:+ "/" +:+ "scan0001.h5")
                   "/raw/scan0001.h5" 14)
  = "delete spot832: " +:+ "scan0001.h5" /\
  flow_run_name (delete_data832_job ("/global/raw" +:+ "/" +:+ "scan0001.h5")
                   "/raw/scan0001.h5" 14)
  = "delete data832: " +:+ "scan0001.h5".
Proof.
  apply path_name_of_file; [now apply partition_None | discriminate | discriminate].
Defined.

Lemma with_name_keeps_folder_witness :
  exists new_file,
    with_name TestScenario.test_file (fresh_name "u") = Ok new_file /\
    path_name new_file = fresh_name "u" /\
    path_components new_file
    = removelast (path_components TestScenario.test_file) ++ [fresh_name "u"] /\
    path_root new_file = path_root TestScenario.test_file.
Proof.
  refine (proj2 (with_name_keeps_folder TestScenario.test_file (fresh_name "u")
                   _ _ _) _).
  - now apply partition_None.
  - discriminate.
  - discriminate.
  - discriminate.
Defined.

Lemma smoke_test_needs_a_name_witness :
  path_name "/" = "" /\
  transferred (test_calls TestScenario.nominal TestScenario.test_nominal
                 Scenario.config "/" 0) = [] /\
  exists e,
    test_result TestScenario.nominal TestScenario.test_nominal
      Scenario.config "/" 0 = Raise e.
Proof.
  split; [reflexivity|].
  apply (smoke_test_needs_a_name TestScenario.nominal TestScenario.test_nominal).
  reflexivity.
Defined.

Lemma xs_hold_no_separator (n : nat) : ~ contains (TestScenario.xs n) "/".
Proof.
  induction n as [|n IH]; intros [a [b E]].
  - destruct a as [|c a]; [discriminate|]. destruct a; discriminate.
  - destruct a as [|c a]; [discriminate|].
    apply IH. exists a, b. cbn [TestScenario.xs] in E. now injection E.
Qed.

Lemma smoke_test_transfers_its_copy_witness :
  source_endpoint TestScenario.facility_request
  = dest_endpoint TestScenario.copy_request /\
  source_path TestScenario.facility_request
  = dest_path TestScenario.copy_request.
Proof.
  apply (smoke_test_transfers_its_copy TestScenario.nominal
           TestScenario.test_nominal Scenario.config TestScenario.test_file 0)
    with (rest := [TestScenario.archive_request]).
  - reflexivity.
  - reflexivity.
  - intros w0. apply xs_hold_no_separator.
  - reflexivity.
Defined.

Lemma smoke_test_checks_scicat_first_witness :
  exists tok url w0 w1,
    In (SecretLoad "scicat-token" (Ok tok))
       (test_calls TestScenario.nominal TestScenario.test_nominal
          Scenario.config TestScenario.test_file 0) /\
    scicat Scenario.config !! "jobs_api_url" = Some url /\
    do_scicat_test TestScenario.test_nominal url tok w0 = (Ok tt, w1).
Proof.
  apply (smoke_test_checks_scicat_first TestScenario.nominal
           TestScenario.test_nominal Scenario.config TestScenario.test_file 0).
  discriminate.
Defined.
